(** * Visionary Prompts: the session state machine and the Gemini request adapter

    A shallow embedding of [App.tsx] (the UI controller) and of
    [services/geminiService.ts] (the request adapter), followed by the
    properties of the request/response lifecycle.

    React state is an explicit [Session] record threaded through the
    handlers; the browser and the remote service are explicit parameters
    ([Runtime], [World]); everything a handler does to the outside
    (network call, clipboard, timer, console) is recorded in a list of
    [Effect]s.  An [async] function is split at its [await]: the part that
    runs inside the click, and the continuation that runs when the promise
    settles. *)

From Stdlib Require Import String Ascii List Bool Arith Lia.
Import ListNotations.
Open Scope string_scope.
Open Scope list_scope.

Set Implicit Arguments.

(** ** JavaScript primitives used by the two files *)

Module Js.

(** Truthiness of a string: only the empty string is falsy. *)
Definition truthy (s : string) : bool :=
  match s with
  | EmptyString => false
  | String _ _ => true
  end.

(** Truthiness of a value that is a string or [undefined]. *)
Definition truthy_opt (v : option string) : bool :=
  match v with
  | Some s => truthy s
  | None => false
  end.

(** [a || b] where [a] is a string or [undefined] and [b] a string. *)
Definition or_else (a : option string) (b : string) : string :=
  match a with
  | Some s => if truthy s then s else b
  | None => b
  end.

(** [v === s] where [v] is a string or [undefined]. *)
Definition strictEq (v : option string) (s : string) : bool :=
  match v with
  | Some x => String.eqb x s
  | None => false
  end.

(** [s.startsWith(p)] *)
Fixpoint startsWith (p s : string) : bool :=
  match p, s with
  | EmptyString, _ => true
  | String a p', String b s' => Ascii.eqb a b && startsWith p' s'
  | String _ _, EmptyString => false
  end.

(** [s.includes(p)] *)
Fixpoint includes (p s : string) : bool :=
  startsWith p s ||
  match s with
  | EmptyString => false
  | String _ s' => includes p s'
  end.

(** [s.split(c)] for a one-character separator. *)
Fixpoint split (c : ascii) (s : string) : list string :=
  match s with
  | EmptyString => [EmptyString]
  | String a s' =>
      if Ascii.eqb a c then EmptyString :: split c s'
      else match split c s' with
           | [] => [String a EmptyString]
           | x :: xs => String a x :: xs
           end
  end.

End Js.

(** ** The host: files, the generative-AI client, the environment *)

(** A DOM [File]: its name, its declared media type and its bytes. *)
Record File := mkFile {
  name : string;
  type : string;
  bytes : list ascii
}.

(** What [FileReader.readAsDataURL] ends with: [loadend] after a load, with
    the data URL in [reader.result]; [loadend] with a [reader.result] that is
    not a string; or an [error] event, which fires before [loadend]. *)
Inductive ReadOutcome :=
| Loaded (result : string)
| EndedWithoutResult
| ReadError.

Record InlineData := mkInlineData {
  data : option string;
  mimeType : string
}.

Inductive Part :=
| InlineDataPart (inlineData : InlineData)
| TextPart (text : string).

(** The argument of [ai.models.generateContent]. *)
Record GenerateContentParameters := mkParams {
  model : string;
  contents : list Part
}.

Record Candidate := mkCandidate {
  finishReason : option string
}.

(** The response of [generateContent]: the [text] getter and the optional
    list of candidates. *)
Record GenerateContentResponse := mkResponse {
  response_text : option string;
  candidates : option (list Candidate)
}.

(** A thrown (or rejected-with) value, as far as the code looks at it:
    an object whose [message] is a string, or a value whose [message] is
    [undefined] (the [ProgressEvent] that [reader.onerror] rejects with). *)
Inductive JsThrown :=
| JsError (message : string)
| NoMessage.

Definition message_of (e : JsThrown) : option string :=
  match e with
  | JsError m => Some m
  | NoMessage => None
  end.

Inductive Result (A : Type) :=
| Ok (a : A)
| Throw (e : JsThrown).
Arguments Ok {A} a.
Arguments Throw {A} e.

(** The outside world of one call: how the file read ends and what the
    remote endpoint answers to a request. *)
Record World := mkWorld {
  readAsDataURL : File -> ReadOutcome;
  generateContent : GenerateContentParameters -> Result GenerateContentResponse
}.

(** Process-wide configuration and the engine: [process.env.API_KEY], and
    the message of the [TypeError] the engine raises when a property of
    [undefined] is read. *)
Record Runtime := mkRuntime {
  API_KEY : option string;
  typeErrorMessage : string
}.

Inductive Effect :=
| NetworkCall (request : GenerateContentParameters)
| ClipboardWriteText (text : string)
| SetTimeout (ms : nat)
| ConsoleError (e : JsThrown).

Definition isNetworkCall (fx : Effect) : bool :=
  match fx with
  | NetworkCall _ => true
  | _ => false
  end.

(** Number of outbound calls in a trace of effects. *)
Definition networkCalls (fxs : list Effect) : nat :=
  length (filter isNetworkCall fxs).

(** ** services/geminiService.ts *)

Module GeminiService.

Definition fileToGenerativePart (w : World) (file : File) : Result Part :=
  match readAsDataURL w file with
  | Loaded result =>
      Ok (InlineDataPart {| data := nth_error (Js.split "," result) 1;
                            mimeType := type file |})
  | EndedWithoutResult => Throw (JsError "Failed to read file as data URL.")
  | ReadError => Throw NoMessage
  end.

(** [response.candidates?.[0]?.finishReason] *)
Definition firstFinishReason (response : GenerateContentResponse)
  : option string :=
  match candidates response with
  | Some (c :: _) => finishReason c
  | _ => None
  end.

Definition instruction : string :=
  "Analyze this image and describe it in extreme detail. The description must be a creative, evocative, and inspiring prompt suitable for an advanced text-to-image AI like Midjourney or DALL-E.

            Your description should cover:
            - **Subject:** What is the main focus? Describe it with rich adjectives.
            - **Composition:** How is the shot framed (e.g., close-up, wide shot, rule of thirds)?
            - **Environment/Background:** What surrounds the subject? Describe the setting.
            - **Lighting:** Describe the quality of light (e.g., soft morning light, dramatic studio lighting, neon glow).
            - **Color Palette:** What are the dominant and accent colors?
            - **Style/Medium:** Is it photorealistic, an oil painting, digital art, 3D render, etc.?
            - **Mood/Atmosphere:** What feeling does the image evoke (e.g., serene, chaotic, nostalgic, futuristic)?
            
            Combine these elements into a single, cohesive paragraph. Write the response in English.".

Definition textPart : Part := TextPart instruction.

Definition request (imagePart : Part) : GenerateContentParameters :=
  {| model := "gemini-3-flash-preview";
     contents := [imagePart; textPart] |}.

(** The body of the [try] block: its result and the calls it made. *)
Definition tryBlock (w : World) (imageFile : File)
  : Result string * list Effect :=
  match fileToGenerativePart w imageFile with
  | Throw e => (Throw e, [])
  | Ok imagePart =>
      let req := request imagePart in
      match generateContent w req with
      | Throw e => (Throw e, [NetworkCall req])
      | Ok response =>
          let onEmpty :=
            (* Check for more specific reasons for empty response *)
            let finishReason := firstFinishReason response in
            if Js.strictEq finishReason "SAFETY" then
              Throw (JsError "Could not generate a prompt. The image was blocked due to safety policies.")
            else
              Throw (JsError "Failed to generate prompt. The model returned an empty response.") in
          match response_text response with
          | Some text =>
              if Js.truthy text then (Ok text, [NetworkCall req])
              else (onEmpty, [NetworkCall req])
          | None => (onEmpty, [NetworkCall req])
          end
      end
  end.

(** The [catch] block: what it throws for a caught [error]. *)
Definition catchBlock (rt : Runtime) (error : JsThrown) : JsThrown :=
  match message_of error with
  | None => JsError (typeErrorMessage rt)
  | Some m =>
      if Js.includes "API key not valid" m then
        JsError "The provided API key is not valid. Please check your configuration."
      else
        JsError (Js.or_else (Some m) "An error occurred while communicating with the AI model.")
  end.

(** How the promise returned by [generatePromptFromImage] settles, and
    the effects of the call. *)
Definition generatePromptFromImage (rt : Runtime) (w : World)
    (imageFile : File) : Result string * list Effect :=
  let apiKey := API_KEY rt in
  if negb (Js.truthy_opt apiKey) then
    (Throw (JsError "API key is not configured. Please set up your environment variables."), [])
  else
    match tryBlock w imageFile with
    | (Ok text, fx) => (Ok text, fx)
    | (Throw error, fx) =>
        (Throw (catchBlock rt error), fx ++ [ConsoleError error])
    end.

End GeminiService.

(** ** App.tsx *)

Module App.

Inductive Status :=
| Initial
| ImageSelected
| Loading
| Success
| Error.

Definition Status_eqb (a b : Status) : bool :=
  match a, b with
  | Initial, Initial | ImageSelected, ImageSelected | Loading, Loading
  | Success, Success | Error, Error => true
  | _, _ => false
  end.

(** The five [useState] cells of the component. *)
Record Session := mkSession {
  imageFile : option File;
  prompt : string;
  status : Status;
  error : string;
  isCopied : bool
}.

(** The session at load. *)
Definition initialSession : Session :=
  {| imageFile := None; prompt := ""; status := Initial; error := "";
     isCopied := false |}.

Definition setImageFile (v : option File) (s : Session) : Session :=
  {| imageFile := v; prompt := prompt s; status := status s;
     error := error s; isCopied := isCopied s |}.

Definition setPrompt (v : string) (s : Session) : Session :=
  {| imageFile := imageFile s; prompt := v; status := status s;
     error := error s; isCopied := isCopied s |}.

Definition setStatus (v : Status) (s : Session) : Session :=
  {| imageFile := imageFile s; prompt := prompt s; status := v;
     error := error s; isCopied := isCopied s |}.

Definition setError (v : string) (s : Session) : Session :=
  {| imageFile := imageFile s; prompt := prompt s; status := status s;
     error := v; isCopied := isCopied s |}.

Definition setIsCopied (v : bool) (s : Session) : Session :=
  {| imageFile := imageFile s; prompt := prompt s; status := status s;
     error := error s; isCopied := v |}.

(** Statements of a handler, in source order. *)
Notation "s ;> f" := (f s) (at level 61, left associativity, only parsing).

(** [handleImageChange]; [file] is [event.target.files?.[0]]. *)
Definition handleImageChange (file : option File) (s : Session) : Session :=
  match file with
  | Some file =>
      if negb (Js.startsWith "image/" (type file)) then
        s ;> setError "Please upload a valid image file (PNG, JPG, etc.)."
          ;> setStatus Error
      else
        s ;> setImageFile (Some file)
          ;> setPrompt ""
          ;> setError ""
          ;> setStatus ImageSelected
  | None => s
  end.

(** [handleGeneratePrompt] up to its [await]: [None] when it returns at
    once, otherwise the updated session and the file handed to the
    adapter. *)
Definition handleGeneratePrompt_call (s : Session)
  : option (Session * File) :=
  match imageFile s with
  | None => None
  | Some file =>
      Some (s ;> setStatus Loading ;> setError "" ;> setPrompt "", file)
  end.

(** [handleGeneratePrompt] after its [await], on the session as it is
    when the promise settles. *)
Definition handleGeneratePrompt_settled (r : Result string) (s : Session)
  : Session * list Effect :=
  match r with
  | Ok generatedPrompt =>
      (s ;> setPrompt generatedPrompt ;> setStatus Success, [])
  | Throw e =>
      (s ;> setError (Js.or_else (message_of e)
                        "An unexpected error occurred. Please try again.")
         ;> setStatus Error,
       [ConsoleError e])
  end.

(** [handleGeneratePrompt] run to completion, nothing else happening
    while the call is awaited. *)
Definition handleGeneratePrompt (rt : Runtime) (w : World) (s : Session)
  : Session * list Effect :=
  match handleGeneratePrompt_call s with
  | None => (s, [])
  | Some (s1, file) =>
      let '(r, fx1) := GeminiService.generatePromptFromImage rt w file in
      let '(s2, fx2) := handleGeneratePrompt_settled r s1 in
      (s2, fx1 ++ fx2)
  end.

Definition handleCopy (s : Session) : Session * list Effect :=
  if Js.truthy (prompt s) then
    (s ;> setIsCopied true,
     [ClipboardWriteText (prompt s); SetTimeout 2000])
  else (s, []).

(** The callback given to [setTimeout] in [handleCopy]. *)
Definition copiedTimeout (s : Session) : Session :=
  s ;> setIsCopied false.

Definition resetState (s : Session) : Session :=
  s ;> setImageFile None
    ;> setPrompt ""
    ;> setError ""
    ;> setStatus Initial.

(** *** What is rendered *)

(** [imageUrl] is non-null exactly when an image is held. *)
Definition hasImageUrl (s : Session) : bool :=
  match imageFile s with
  | Some _ => true
  | None => false
  end.

(** The generate button is rendered under [imageUrl &&], with
    [disabled={status === 'loading'}]. *)
Definition generateButton_rendered (s : Session) : bool := hasImageUrl s.
Definition generateButton_disabled (s : Session) : bool :=
  Status_eqb (status s) Loading.

(** [{status === 'error' && error && ...}] *)
Definition displayedError (s : Session) : option string :=
  if Status_eqb (status s) Error && Js.truthy (error s)
  then Some (error s) else None.

(** [{status === 'success' && prompt && ...}] *)
Definition displayedPrompt (s : Session) : option string :=
  if Status_eqb (status s) Success && Js.truthy (prompt s)
  then Some (prompt s) else None.

(** *** The four operations of the session *)

Definition selectImage (file : File) (s : Session) : Session :=
  handleImageChange (Some file) s.

(** A click on the generate button: it reaches [handleGeneratePrompt]
    only when the button is rendered and not disabled. *)
Definition requestGeneration (rt : Runtime) (w : World) (s : Session)
  : Session * list Effect :=
  if generateButton_rendered s && negb (generateButton_disabled s) then
    handleGeneratePrompt rt w s
  else (s, []).

Definition copyPrompt (s : Session) : Session * list Effect :=
  handleCopy s.

Definition reset (s : Session) : Session := resetState s.

End App.

(** ** The running page: handlers interleaved with settling calls and timers *)

Module Page.
Import App.

(** The component together with what is pending around it: the calls
    awaited by [handleGeneratePrompt] (each with the way it will
    settle), the due times of the [setTimeout] callbacks, the clock in
    milliseconds, and every effect so far. *)
Record Config := mkConfig {
  session : Session;
  inflight : list (Result string);
  timers : list nat;
  now : nat;
  trace : list Effect
}.

Definition initialConfig : Config :=
  {| session := initialSession; inflight := []; timers := []; now := 0;
     trace := [] |}.

Inductive Event :=
| Change (file : option File)
| ClickGenerate (rt : Runtime) (w : World)
| Settle (i : nat)
| ClickCopy
| ClickReset
| Advance (ms : nat).

Definition timeouts (fxs : list Effect) : list nat :=
  flat_map (fun fx => match fx with SetTimeout ms => [ms] | _ => [] end) fxs.

Fixpoint removeNth {A : Type} (i : nat) (l : list A) : list A :=
  match i, l with
  | _, [] => []
  | O, _ :: l' => l'
  | S i', x :: l' => x :: removeNth i' l'
  end.

Definition step (ev : Event) (c : Config) : Config :=
  match ev with
  | Change file =>
      {| session := handleImageChange file (session c);
         inflight := inflight c; timers := timers c; now := now c;
         trace := trace c |}
  | ClickGenerate rt w =>
      if generateButton_rendered (session c)
         && negb (generateButton_disabled (session c)) then
        match handleGeneratePrompt_call (session c) with
        | None => c
        | Some (s1, file) =>
            let '(r, fx) := GeminiService.generatePromptFromImage rt w file in
            {| session := s1; inflight := inflight c ++ [r];
               timers := timers c; now := now c; trace := trace c ++ fx |}
        end
      else c
  | Settle i =>
      match nth_error (inflight c) i with
      | None => c
      | Some r =>
          let '(s2, fx) := handleGeneratePrompt_settled r (session c) in
          {| session := s2; inflight := removeNth i (inflight c);
             timers := timers c; now := now c; trace := trace c ++ fx |}
      end
  | ClickCopy =>
      let '(s1, fx) := handleCopy (session c) in
      {| session := s1; inflight := inflight c;
         timers := timers c ++ map (fun ms => now c + ms) (timeouts fx);
         now := now c; trace := trace c ++ fx |}
  | ClickReset =>
      {| session := resetState (session c);
         inflight := inflight c; timers := timers c; now := now c;
         trace := trace c |}
  | Advance ms =>
      let t := now c + ms in
      let due := filter (fun d => Nat.leb d t) (timers c) in
      {| session := match due with
                    | [] => session c
                    | _ :: _ => copiedTimeout (session c)
                    end;
         inflight := inflight c;
         timers := filter (fun d => negb (Nat.leb d t)) (timers c);
         now := t; trace := trace c |}
  end.

(** The events of a run, oldest first. *)
Definition run (evs : list Event) (c : Config) : Config :=
  fold_left (fun c ev => step ev c) evs c.

End Page.

(** ** The invariant of the running page *)

(** What holds of every configuration the page can be in: a session in
    the success state holds a non-empty prompt, a session in the error
    state holds a non-empty message, and every call in flight that will
    resolve does so with a non-empty text. *)
Definition resolvesNonEmpty (r : Result string) : Prop :=
  match r with
  | Ok text => Js.truthy text = true
  | Throw _ => True
  end.

Record Consistent (c : Page.Config) : Prop := mkConsistent {
  success_has_prompt :
    App.status (Page.session c) = App.Success ->
    Js.truthy (App.prompt (Page.session c)) = true;
  error_has_message :
    App.status (Page.session c) = App.Error ->
    Js.truthy (App.error (Page.session c)) = true;
  inflight_nonempty : Forall resolvesNonEmpty (Page.inflight c)
}.

(** ** Sample inputs *)

Module Samples.
Import App.

Definition photo_png : File :=
  {| name := "photo.png"; type := "image/png"; bytes := [] |}.

Definition notes_txt : File :=
  {| name := "notes.txt"; type := "text/plain"; bytes := [] |}.

Definition configured : Runtime :=
  {| API_KEY := Some "k";
     typeErrorMessage := "Cannot read properties of undefined (reading 'includes')" |}.

Definition unconfigured : Runtime :=
  {| API_KEY := None;
     typeErrorMessage := "Cannot read properties of undefined (reading 'includes')" |}.

Definition reads (f : File) : ReadOutcome :=
  Loaded ("data:" ++ type f ++ ";base64,iVBORw0KGgo=").

(** A service that answers every request with [text]. *)
Definition answering (text : string) : World :=
  {| readAsDataURL := reads;
     generateContent := fun _ =>
       Ok {| response_text := Some text;
             candidates := Some [ {| finishReason := Some "STOP" |} ] |} |}.

(** A service that answers with no text and the given finish reason. *)
Definition silent (reason : option string) : World :=
  {| readAsDataURL := reads;
     generateContent := fun _ =>
       Ok {| response_text := None;
             candidates := Some [ {| finishReason := reason |} ] |} |}.

(** A service whose call fails with an error of the given message. *)
Definition failing (m : string) : World :=
  {| readAsDataURL := reads;
     generateContent := fun _ => Throw (JsError m) |}.

(** A browser in which the file cannot be read. *)
Definition unreadable : World :=
  {| readAsDataURL := fun _ => ReadError;
     generateContent := fun _ => Throw (JsError "unreachable") |}.

Definition withPhoto : Session := selectImage photo_png initialSession.

Definition loadingPhoto : Session :=
  withPhoto ;> setStatus Loading ;> setError "" ;> setPrompt "".

Definition succeeded : Session :=
  fst (requestGeneration configured (answering "A golden retriever...") withPhoto).

End Samples.

(** ** The controls of the page *)

Module Ui.
Import App.

(** The upload input is rendered under [!imageUrl]. *)
Definition uploadInput_rendered (s : Session) : bool := negb (hasImageUrl s).

(** The reset button is rendered under [imageUrl &&], beside the image. *)
Definition resetButton_rendered (s : Session) : bool := hasImageUrl s.

(** The copy button is rendered inside the prompt panel, under
    [status === 'success' && prompt]. *)
Definition copyButton_rendered (s : Session) : bool :=
  Status_eqb (status s) Success && Js.truthy (prompt s).

(** [isCopied ? <CheckIcon/> : <CopyIcon/>], when the button is there. *)
Definition checkIcon_shown (s : Session) : bool :=
  copyButton_rendered s && isCopied s.

(** Whether the page, as rendered for [s], offers the control an event
    comes from; a settling call and a timer need none. *)
Definition available (ev : Page.Event) (s : Session) : bool :=
  match ev with
  | Page.Change _ => uploadInput_rendered s
  | Page.ClickGenerate _ _ =>
      generateButton_rendered s && negb (generateButton_disabled s)
  | Page.ClickCopy => copyButton_rendered s
  | Page.ClickReset => resetButton_rendered s
  | Page.Settle _ => true
  | Page.Advance _ => true
  end.

(** A step of the page as a user can drive it: an event on a control
    that is not rendered (or is disabled) does not happen. *)
Definition uiStep (ev : Page.Event) (c : Page.Config) : Page.Config :=
  if available ev (Page.session c) then Page.step ev c else c.

Definition uiRun (evs : list Page.Event) (c : Page.Config) : Page.Config :=
  fold_left (fun c ev => uiStep ev c) evs c.

Definition isReset (ev : Page.Event) : bool :=
  match ev with
  | Page.ClickReset => true
  | _ => false
  end.

Definition isClickGenerate (ev : Page.Event) : bool :=
  match ev with
  | Page.ClickGenerate _ _ => true
  | _ => false
  end.

End Ui.

(** ** Further invariants of the running page *)

(** The texts handed to the clipboard, oldest first. *)
Definition clipboardWrites (fxs : list Effect) : list string :=
  flat_map (fun fx => match fx with ClipboardWriteText t => [t] | _ => [] end)
    fxs.

(** What each status says about the stored fields and the calls awaited. *)
Definition ModeInvariant (c : Page.Config) : Prop :=
  match App.status (Page.session c) with
  | App.Initial =>
      App.imageFile (Page.session c) = None
      /\ App.prompt (Page.session c) = ""
      /\ App.error (Page.session c) = ""
  | App.ImageSelected =>
      App.imageFile (Page.session c) <> None
      /\ App.prompt (Page.session c) = ""
      /\ App.error (Page.session c) = ""
  | App.Loading =>
      App.imageFile (Page.session c) <> None
      /\ App.prompt (Page.session c) = ""
      /\ App.error (Page.session c) = ""
      /\ Page.inflight c <> []
  | App.Success => True
  | App.Error => True
  end.

(** Every armed timer falls due within 2000 ms, and a set copy flag has a
    timer armed to clear it. *)
Definition TimersInvariant (c : Page.Config) : Prop :=
  Forall (fun d => (d <= Page.now c + 2000)%nat) (Page.timers c)
  /\ (App.isCopied (Page.session c) = true -> Page.timers c <> []).

(** The clipboard only ever receives non-empty texts, and each write arms
    one timer of 2000 ms. *)
Definition CopyTraceInvariant (c : Page.Config) : Prop :=
  Forall (fun t => t <> "") (clipboardWrites (Page.trace c))
  /\ Page.timeouts (Page.trace c)
     = map (fun _ => 2000) (clipboardWrites (Page.trace c)).

(** One call awaited while loading, none otherwise. *)
Definition SingleFlight (c : Page.Config) : Prop :=
  (App.status (Page.session c) = App.Loading
   /\ App.imageFile (Page.session c) <> None
   /\ exists r, Page.inflight c = [r])
  \/ (App.status (Page.session c) <> App.Loading /\ Page.inflight c = []).

(** ** Further sample inputs *)

Module MoreSamples.
Import App.

Definition picture_gif : File :=
  {| name := "picture.gif"; type := "image/gif"; bytes := [] |}.

(** A browser that reads an empty file as the bare data URL "data:". *)
Definition readsEmpty : World :=
  {| readAsDataURL := fun _ => Loaded "data:";
     generateContent := fun _ =>
       Ok {| response_text := Some "An empty canvas";
             candidates := None |} |}.

(** A browser in which the read ends with no result and no error event. *)
Definition aborted : World :=
  {| readAsDataURL := fun _ => EndedWithoutResult;
     generateContent := fun _ => Throw (JsError "unreachable") |}.

Definition emptyKey : Runtime :=
  {| API_KEY := Some "";
     typeErrorMessage := "Cannot read properties of undefined (reading 'includes')" |}.

(** Select, generate, let the call resolve, copy. *)
Definition copied : Page.Config :=
  Page.run [Page.Change (Some Samples.photo_png);
            Page.ClickGenerate Samples.configured
              (Samples.answering "A golden retriever...");
            Page.Settle 0;
            Page.ClickCopy] Page.initialConfig.

End MoreSamples.

(** * Properties *)

Import App.

(** ** JavaScript primitives *)

Lemma truthy_true_iff (s : string) : Js.truthy s = true <-> s <> "".
Proof.
  destruct s; simpl; split; intro H; congruence.
Qed.

Lemma truthy_false_iff (s : string) : Js.truthy s = false <-> s = "".
Proof.
  destruct s; simpl; split; intro H; congruence.
Qed.

Lemma or_else_truthy (a : option string) (b : string) :
  Js.truthy b = true -> Js.truthy (Js.or_else a b) = true.
Proof.
  intro Hb. destruct a as [x|]; simpl; auto.
  destruct (Js.truthy x) eqn:Hx; auto.
Qed.

Lemma or_else_some_truthy (x b : string) :
  Js.truthy x = true -> Js.or_else (Some x) b = x.
Proof. intro H. simpl. now rewrite H. Qed.

Lemma strictEq_true_iff (v : option string) (s : string) :
  Js.strictEq v s = true <-> v = Some s.
Proof.
  destruct v as [x|]; simpl.
  - rewrite String.eqb_eq. split; congruence.
  - split; discriminate.
Qed.

Lemma Status_eqb_eq (a b : Status) : Status_eqb a b = true <-> a = b.
Proof. destruct a, b; simpl; split; congruence. Qed.

Lemma Status_eqb_neq (a b : Status) : Status_eqb a b = false <-> a <> b.
Proof. destruct a, b; simpl; split; congruence. Qed.

(** ** The examples of the specification, evaluated *)

Example select_photo_png :
  status Samples.withPhoto = ImageSelected
  /\ imageFile Samples.withPhoto = Some Samples.photo_png.
Proof. split; reflexivity. Qed.

Example generate_golden_retriever :
  status Samples.succeeded = Success
  /\ displayedPrompt Samples.succeeded = Some "A golden retriever...".
Proof. split; reflexivity. Qed.

Example select_notes_txt :
  status (selectImage Samples.notes_txt initialSession) = Error
  /\ Js.includes "valid image file"
       (error (selectImage Samples.notes_txt initialSession)) = true.
Proof. split; reflexivity. Qed.

Example reset_clears :
  reset Samples.succeeded = initialSession.
Proof. reflexivity. Qed.

Example unreadable_file_reports_type_error :
  GeminiService.generatePromptFromImage Samples.configured Samples.unreadable
    Samples.photo_png
  = (Throw (JsError "Cannot read properties of undefined (reading 'includes')"),
     [ConsoleError NoMessage]).
Proof. reflexivity. Qed.

(** ** The request adapter *)

Lemma tryBlock_Ok_truthy (w : World) (f : File) (t : string) (fx : list Effect) :
  GeminiService.tryBlock w f = (Ok t, fx) -> Js.truthy t = true.
Proof.
  unfold GeminiService.tryBlock.
  destruct (GeminiService.fileToGenerativePart w f) as [part|e]; [|discriminate].
  destruct (generateContent w (GeminiService.request part)) as [resp|e];
    [|discriminate].
  destruct (response_text resp) as [text|].
  - destruct (Js.truthy text) eqn:Ht.
    + intro H. inversion H. subst. exact Ht.
    + destruct (Js.strictEq _ _); discriminate.
  - destruct (Js.strictEq _ _); discriminate.
Qed.

Lemma generatePromptFromImage_Ok_truthy
    (rt : Runtime) (w : World) (f : File) (t : string) (fx : list Effect) :
  GeminiService.generatePromptFromImage rt w f = (Ok t, fx) ->
  Js.truthy t = true.
Proof.
  unfold GeminiService.generatePromptFromImage.
  destruct (negb (Js.truthy_opt (API_KEY rt))); [discriminate|].
  destruct (GeminiService.tryBlock w f) as [[t'|e] fx'] eqn:Htry;
    [|discriminate].
  intro H. inversion H. subst. eapply tryBlock_Ok_truthy. exact Htry.
Qed.

Lemma generatePromptFromImage_unconfigured
    (rt : Runtime) (w : World) (f : File) :
  Js.truthy_opt (API_KEY rt) = false ->
  GeminiService.generatePromptFromImage rt w f
  = (Throw (JsError "API key is not configured. Please set up your environment variables."),
     []).
Proof.
  intro H. unfold GeminiService.generatePromptFromImage. now rewrite H.
Qed.

Lemma generatePromptFromImage_configured
    (rt : Runtime) (w : World) (f : File) :
  Js.truthy_opt (API_KEY rt) = true ->
  GeminiService.generatePromptFromImage rt w f
  = match GeminiService.tryBlock w f with
    | (Ok text, fx) => (Ok text, fx)
    | (Throw error, fx) =>
        (Throw (GeminiService.catchBlock rt error), fx ++ [ConsoleError error])
    end.
Proof.
  intro H. unfold GeminiService.generatePromptFromImage. now rewrite H.
Qed.

(** ** The generate button *)

Lemma requestGeneration_enabled
    (rt : Runtime) (w : World) (s : Session) (f : File) :
  imageFile s = Some f ->
  status s <> Loading ->
  requestGeneration rt w s
  = (fst (handleGeneratePrompt_settled
            (fst (GeminiService.generatePromptFromImage rt w f))
            (s ;> setStatus Loading ;> setError "" ;> setPrompt "")),
     snd (GeminiService.generatePromptFromImage rt w f)
     ++ snd (handleGeneratePrompt_settled
               (fst (GeminiService.generatePromptFromImage rt w f))
               (s ;> setStatus Loading ;> setError "" ;> setPrompt ""))).
Proof.
  intros Hf Hst.
  unfold requestGeneration, generateButton_rendered, generateButton_disabled,
    hasImageUrl, handleGeneratePrompt, handleGeneratePrompt_call.
  rewrite Hf.
  apply Status_eqb_neq in Hst. rewrite Hst. simpl.
  destruct (GeminiService.generatePromptFromImage rt w f) as [r fx1].
  simpl.
  destruct (handleGeneratePrompt_settled r _) as [s2 fx2].
  reflexivity.
Qed.

Lemma requestGeneration_disabled (rt : Runtime) (w : World) (s : Session) :
  status s = Loading -> requestGeneration rt w s = (s, []).
Proof.
  intro H. unfold requestGeneration, generateButton_disabled.
  rewrite H. simpl. now rewrite andb_false_r.
Qed.

(** Called directly, [handleGeneratePrompt] has no guard on the status:
    what keeps a second call from starting while one is awaited is the
    [disabled] attribute of the button alone. *)
Remark handleGeneratePrompt_ignores_status :
  status Samples.loadingPhoto = Loading
  /\ networkCalls
       (snd (handleGeneratePrompt Samples.configured (Samples.answering "x")
               Samples.loadingPhoto)) = 1.
Proof. split; reflexivity. Qed.

(** C1. With an image selected and the generate button enabled, if
    [process.env.API_KEY] is absent when the button is clicked, the adapter
    fails at once with the message "API key is not configured. ..." and an
    empty list of effects, and the session ends in the error state with
    that message stored and shown; no network call is made. *)
Theorem missing_credential_is_configuration_error
    (rt : Runtime) (w : World) (s : Session) (f : File) :
  imageFile s = Some f ->
  status s <> Loading ->
  API_KEY rt = None ->
  GeminiService.generatePromptFromImage rt w f
  = (Throw (JsError "API key is not configured. Please set up your environment variables."),
     [])
  /\ status (fst (requestGeneration rt w s)) = Error
  /\ error (fst (requestGeneration rt w s))
     = "API key is not configured. Please set up your environment variables."
  /\ displayedError (fst (requestGeneration rt w s))
     = Some "API key is not configured. Please set up your environment variables."
  /\ networkCalls (snd (requestGeneration rt w s)) = 0.
Proof.
  intros Hf Hst Hkey.
  assert (Hk : Js.truthy_opt (API_KEY rt) = false) by now rewrite Hkey.
  rewrite (requestGeneration_enabled rt w s Hf Hst).
  rewrite (generatePromptFromImage_unconfigured rt w f Hk).
  repeat split; reflexivity.
Qed.

Lemma missing_credential_witness :
  imageFile Samples.withPhoto = Some Samples.photo_png
  /\ status Samples.withPhoto <> Loading
  /\ API_KEY Samples.unconfigured = None
  /\ status (fst (requestGeneration Samples.unconfigured
                    (Samples.answering "x") Samples.withPhoto)) = Error.
Proof.
  split; [reflexivity|]. split; [discriminate|]. split; [reflexivity|].
  apply (missing_credential_is_configuration_error
           Samples.unconfigured (Samples.answering "x")
           Samples.withPhoto (f := Samples.photo_png));
    [reflexivity | discriminate | reflexivity].
Defined.

(** C2. While the status is [Loading] the generate button is disabled: a
    click on it with an image selected leaves the session as it is and has
    no effect at all, and on the running page it leaves the whole
    configuration unchanged, so the calls in flight and the trace of
    network calls stay the same. *)
Theorem generate_while_loading_is_noop
    (rt : Runtime) (w : World) (c : Page.Config) (f : File) :
  imageFile (Page.session c) = Some f ->
  status (Page.session c) = Loading ->
  requestGeneration rt w (Page.session c) = (Page.session c, [])
  /\ networkCalls (snd (requestGeneration rt w (Page.session c))) = 0
  /\ Page.step (Page.ClickGenerate rt w) c = c.
Proof.
  intros _ Hst.
  rewrite (requestGeneration_disabled rt w _ Hst).
  repeat split.
  unfold Page.step, generateButton_disabled. rewrite Hst. simpl.
  now rewrite andb_false_r.
Qed.

Lemma generate_while_loading_witness :
  let c := Page.step (Page.ClickGenerate Samples.configured (Samples.answering "x"))
             (Page.step (Page.Change (Some Samples.photo_png)) Page.initialConfig) in
  imageFile (Page.session c) = Some Samples.photo_png
  /\ status (Page.session c) = Loading
  /\ networkCalls (Page.trace c) = 1
  /\ Page.step (Page.ClickGenerate Samples.configured (Samples.answering "y")) c = c.
Proof.
  cbv zeta.
  split; [reflexivity|]. split; [reflexivity|]. split; [reflexivity|].
  apply (generate_while_loading_is_noop Samples.configured (Samples.answering "y")
           _ (f := Samples.photo_png)); reflexivity.
Defined.

(** ** Selecting a file *)

Lemma handleImageChange_invalid (f : File) (s : Session) :
  Js.startsWith "image/" (type f) = false ->
  handleImageChange (Some f) s
  = s ;> setError "Please upload a valid image file (PNG, JPG, etc.)."
      ;> setStatus Error.
Proof.
  intro H. unfold handleImageChange. now rewrite H.
Qed.

(** C5. For every file whose declared media type does not start with
    "image/", [selectImage] puts the session in the error state with the
    message "Please upload a valid image file (PNG, JPG, etc.).", which
    mentions "valid image file"; on the running page the event starts no
    call and adds nothing to the trace of effects. *)
Theorem non_image_selection_is_error
    (f : File) (c : Page.Config) :
  Js.startsWith "image/" (type f) = false ->
  status (selectImage f (Page.session c)) = Error
  /\ error (selectImage f (Page.session c))
     = "Please upload a valid image file (PNG, JPG, etc.)."
  /\ Js.includes "valid image file"
       (error (selectImage f (Page.session c))) = true
  /\ Page.session (Page.step (Page.Change (Some f)) c)
     = selectImage f (Page.session c)
  /\ Page.trace (Page.step (Page.Change (Some f)) c) = Page.trace c
  /\ Page.inflight (Page.step (Page.Change (Some f)) c) = Page.inflight c.
Proof.
  intro H. unfold selectImage. cbn [Page.step Page.session Page.trace Page.inflight].
  rewrite (handleImageChange_invalid f (Page.session c) H).
  repeat split; reflexivity.
Qed.

Lemma non_image_selection_witness :
  Js.startsWith "image/" (type Samples.notes_txt) = false
  /\ status (selectImage Samples.notes_txt (Page.session Page.initialConfig))
     = Error.
Proof.
  split; [reflexivity|].
  apply (non_image_selection_is_error Samples.notes_txt Page.initialConfig).
  reflexivity.
Defined.

(** C10. Selecting a file that is not an image changes the status and the
    error message only: the stored image, the stored prompt and the copy
    flag are those of the session before.  A session that shows a prompt
    keeps its image and its prompt in memory, and shows the error in place
    of the prompt. *)
Theorem non_image_selection_keeps_image_and_prompt
    (f : File) (s : Session) :
  Js.startsWith "image/" (type f) = false ->
  imageFile (selectImage f s) = imageFile s
  /\ prompt (selectImage f s) = prompt s
  /\ isCopied (selectImage f s) = isCopied s
  /\ status (selectImage f s) = Error
  /\ error (selectImage f s)
     = "Please upload a valid image file (PNG, JPG, etc.)."
  /\ displayedPrompt (selectImage f s) = None
  /\ displayedError (selectImage f s)
     = Some "Please upload a valid image file (PNG, JPG, etc.).".
Proof.
  intro H. unfold selectImage.
  rewrite (handleImageChange_invalid f s H).
  repeat split; reflexivity.
Qed.

Lemma non_image_selection_keeps_witness :
  Js.startsWith "image/" (type Samples.notes_txt) = false
  /\ status Samples.succeeded = Success
  /\ imageFile (selectImage Samples.notes_txt Samples.succeeded)
     = Some Samples.photo_png
  /\ prompt (selectImage Samples.notes_txt Samples.succeeded)
     = "A golden retriever...".
Proof.
  split; [reflexivity|]. split; [reflexivity|].
  destruct (non_image_selection_keeps_image_and_prompt
              Samples.notes_txt Samples.succeeded eq_refl)
    as (Hi & Hp & _).
  split; [rewrite Hi | rewrite Hp]; reflexivity.
Defined.

(** ** Outcomes of a generation *)

(** C3. With an image selected and the generate button enabled, if the
    adapter's promise resolves with a non-empty [text], the session ends
    in the success state, the stored prompt is [text] itself, and [text]
    is what is displayed. *)
Theorem success_stores_text_exactly
    (rt : Runtime) (w : World) (s : Session) (f : File)
    (text : string) (fx : list Effect) :
  imageFile s = Some f ->
  status s <> Loading ->
  GeminiService.generatePromptFromImage rt w f = (Ok text, fx) ->
  text <> "" ->
  status (fst (requestGeneration rt w s)) = Success
  /\ prompt (fst (requestGeneration rt w s)) = text
  /\ displayedPrompt (fst (requestGeneration rt w s)) = Some text.
Proof.
  intros Hf Hst Hgen Hne.
  rewrite (requestGeneration_enabled rt w s Hf Hst), Hgen. simpl.
  unfold displayedPrompt. simpl.
  apply truthy_true_iff in Hne. rewrite Hne.
  repeat split.
Qed.

Lemma success_stores_text_witness :
  imageFile Samples.withPhoto = Some Samples.photo_png
  /\ status Samples.withPhoto <> Loading
  /\ "A golden retriever..." <> ""
  /\ prompt (fst (requestGeneration Samples.configured
                    (Samples.answering "A golden retriever...")
                    Samples.withPhoto))
     = "A golden retriever...".
Proof.
  split; [reflexivity|]. split; [discriminate|]. split; [discriminate|].
  apply (success_stores_text_exactly Samples.configured
           (Samples.answering "A golden retriever...") Samples.withPhoto
           (f := Samples.photo_png) (text := "A golden retriever...")
           (fx := [NetworkCall (GeminiService.request
                     (InlineDataPart {| data := Some "iVBORw0KGgo=";
                                        mimeType := "image/png" |}))]));
    [reflexivity | discriminate | reflexivity | discriminate].
Defined.

Lemma tryBlock_empty_response
    (w : World) (f : File) (part : Part) (response : GenerateContentResponse) :
  GeminiService.fileToGenerativePart w f = Ok part ->
  generateContent w (GeminiService.request part) = Ok response ->
  Js.truthy_opt (response_text response) = false ->
  GeminiService.tryBlock w f
  = (Throw (JsError
       (if Js.strictEq (GeminiService.firstFinishReason response) "SAFETY"
        then "Could not generate a prompt. The image was blocked due to safety policies."
        else "Failed to generate prompt. The model returned an empty response.")),
     [NetworkCall (GeminiService.request part)]).
Proof.
  intros Hpart Hresp Hempty.
  unfold GeminiService.tryBlock. rewrite Hpart, Hresp.
  destruct (response_text response) as [text|]; simpl in Hempty.
  - rewrite Hempty.
    destruct (Js.strictEq _ _); reflexivity.
  - destruct (Js.strictEq _ _); reflexivity.
Qed.

(** C4. With an image selected, the button enabled, a credential
    configured and the file read, if the remote response has no text
    (absent or empty) then the session ends in the error state after
    exactly one network call; the stored message is the safety message
    ("... blocked due to safety policies.") when the finish reason of the
    first candidate is "SAFETY", and the empty-response message
    ("... The model returned an empty response.") otherwise. *)
Theorem empty_response_is_safety_or_empty_error
    (rt : Runtime) (w : World) (s : Session) (f : File)
    (part : Part) (response : GenerateContentResponse) :
  imageFile s = Some f ->
  status s <> Loading ->
  Js.truthy_opt (API_KEY rt) = true ->
  GeminiService.fileToGenerativePart w f = Ok part ->
  generateContent w (GeminiService.request part) = Ok response ->
  Js.truthy_opt (response_text response) = false ->
  status (fst (requestGeneration rt w s)) = Error
  /\ error (fst (requestGeneration rt w s))
     = (if Js.strictEq (GeminiService.firstFinishReason response) "SAFETY"
        then "Could not generate a prompt. The image was blocked due to safety policies."
        else "Failed to generate prompt. The model returned an empty response.")
  /\ Js.includes "safety" (error (fst (requestGeneration rt w s)))
     = Js.strictEq (GeminiService.firstFinishReason response) "SAFETY"
  /\ Js.includes "empty response" (error (fst (requestGeneration rt w s)))
     = negb (Js.strictEq (GeminiService.firstFinishReason response) "SAFETY")
  /\ networkCalls (snd (requestGeneration rt w s)) = 1.
Proof.
  intros Hf Hst Hkey Hpart Hresp Hempty.
  rewrite (requestGeneration_enabled rt w s Hf Hst).
  rewrite (generatePromptFromImage_configured rt w f Hkey).
  rewrite (tryBlock_empty_response w f Hpart Hresp Hempty).
  destruct (Js.strictEq _ _); repeat split; reflexivity.
Qed.

Lemma empty_response_witness :
  imageFile Samples.withPhoto = Some Samples.photo_png
  /\ status Samples.withPhoto <> Loading
  /\ Js.truthy_opt (API_KEY Samples.configured) = true
  /\ GeminiService.firstFinishReason
       {| response_text := None;
          candidates := Some [ {| finishReason := Some "SAFETY" |} ] |}
     = Some "SAFETY"
  /\ error (fst (requestGeneration Samples.configured
                   (Samples.silent (Some "SAFETY")) Samples.withPhoto))
     = "Could not generate a prompt. The image was blocked due to safety policies.".
Proof.
  split; [reflexivity|]. split; [discriminate|]. split; [reflexivity|].
  split; [reflexivity|].
  apply (empty_response_is_safety_or_empty_error Samples.configured
           (Samples.silent (Some "SAFETY")) Samples.withPhoto
           (f := Samples.photo_png)
           (part := InlineDataPart {| data := Some "iVBORw0KGgo=";
                                      mimeType := "image/png" |})
           (response := {| response_text := None;
                           candidates := Some [ {| finishReason := Some "SAFETY" |} ] |}));
    [reflexivity | discriminate | reflexivity | reflexivity | reflexivity
    | reflexivity].
Defined.

(** ** Failures of the network call *)

Lemma tryBlock_call_throws
    (w : World) (f : File) (part : Part) (e : JsThrown) :
  GeminiService.fileToGenerativePart w f = Ok part ->
  generateContent w (GeminiService.request part) = Throw e ->
  GeminiService.tryBlock w f
  = (Throw e, [NetworkCall (GeminiService.request part)]).
Proof.
  intros Hpart Hcall. unfold GeminiService.tryBlock.
  now rewrite Hpart, Hcall.
Qed.

(** C6, as the claim states it, fails: a failure whose message is empty
    does not contain "API key not valid", and the adapter's outcome does
    not carry that (empty) message but a generic one. *)
Lemma transport_failure_empty_message_counterexample :
  generateContent (Samples.failing "")
    (GeminiService.request
       (InlineDataPart {| data := Some "iVBORw0KGgo="; mimeType := "image/png" |}))
  = Throw (JsError "")
  /\ Js.includes "API key not valid" "" = false
  /\ fst (GeminiService.generatePromptFromImage Samples.configured
            (Samples.failing "") Samples.photo_png)
     <> Throw (JsError "")
  /\ fst (GeminiService.generatePromptFromImage Samples.configured
            (Samples.failing "") Samples.photo_png)
     = Throw (JsError "An error occurred while communicating with the AI model.").
Proof.
  split; [reflexivity|]. split; [reflexivity|].
  split; [discriminate | reflexivity].
Qed.

(** C6, amended. With a credential configured and the file read, when the
    network call fails with an error whose message is [m]: if [m]
    contains "API key not valid" the adapter rejects with "The provided
    API key is not valid. Please check your configuration." (which is not
    the message of the missing-key check); otherwise it rejects with [m]
    itself when [m] is non-empty, and with "An error occurred while
    communicating with the AI model." when [m] is empty.  One network call
    was made, and the caught error was logged. *)
Theorem transport_failure_is_classified
    (rt : Runtime) (w : World) (f : File) (part : Part) (m : string) :
  Js.truthy_opt (API_KEY rt) = true ->
  GeminiService.fileToGenerativePart w f = Ok part ->
  generateContent w (GeminiService.request part) = Throw (JsError m) ->
  GeminiService.generatePromptFromImage rt w f
  = (Throw (JsError
       (if Js.includes "API key not valid" m then
          "The provided API key is not valid. Please check your configuration."
        else if Js.truthy m then m
        else "An error occurred while communicating with the AI model.")),
     [NetworkCall (GeminiService.request part); ConsoleError (JsError m)])
  /\ "The provided API key is not valid. Please check your configuration."
     <> "API key is not configured. Please set up your environment variables."
  /\ networkCalls (snd (GeminiService.generatePromptFromImage rt w f)) = 1.
Proof.
  intros Hkey Hpart Hcall.
  rewrite (generatePromptFromImage_configured rt w f Hkey).
  rewrite (tryBlock_call_throws w f Hpart Hcall).
  unfold GeminiService.catchBlock.
  change (message_of (JsError m)) with (Some m). cbv beta iota.
  destruct (Js.includes "API key not valid" m).
  - repeat split; try reflexivity; discriminate.
  - unfold Js.or_else.
    destruct (Js.truthy m); repeat split; try reflexivity; discriminate.
Qed.

Lemma transport_failure_witness :
  Js.truthy_opt (API_KEY Samples.configured) = true
  /\ fst (GeminiService.generatePromptFromImage Samples.configured
            (Samples.failing "API key not valid. Please pass a valid API key.")
            Samples.photo_png)
     = Throw (JsError "The provided API key is not valid. Please check your configuration.")
  /\ fst (GeminiService.generatePromptFromImage Samples.configured
            (Samples.failing "Failed to fetch") Samples.photo_png)
     = Throw (JsError "Failed to fetch").
Proof.
  split; [reflexivity|].
  split.
  - destruct (transport_failure_is_classified Samples.configured
                (Samples.failing "API key not valid. Please pass a valid API key.")
                Samples.photo_png
                (part := InlineDataPart {| data := Some "iVBORw0KGgo=";
                                           mimeType := "image/png" |})
                (m := "API key not valid. Please pass a valid API key.")
                eq_refl eq_refl eq_refl) as (H & _).
    rewrite H. reflexivity.
  - destruct (transport_failure_is_classified Samples.configured
                (Samples.failing "Failed to fetch")
                Samples.photo_png
                (part := InlineDataPart {| data := Some "iVBORw0KGgo=";
                                           mimeType := "image/png" |})
                (m := "Failed to fetch")
                eq_refl eq_refl eq_refl) as (H & _).
    rewrite H. reflexivity.
Defined.

(** ** Copying the prompt *)

Lemma handleCopy_present (s : Session) :
  prompt s <> "" ->
  handleCopy s
  = (s ;> setIsCopied true, [ClipboardWriteText (prompt s); SetTimeout 2000]).
Proof.
  intro H. apply truthy_true_iff in H. unfold handleCopy. now rewrite H.
Qed.

Lemma step_ClickCopy_present (c : Page.Config) :
  prompt (Page.session c) <> "" ->
  Page.step Page.ClickCopy c
  = {| Page.session := Page.session c ;> setIsCopied true;
       Page.inflight := Page.inflight c;
       Page.timers := Page.timers c ++ [Page.now c + 2000];
       Page.now := Page.now c;
       Page.trace := Page.trace c
                     ++ [ClipboardWriteText (prompt (Page.session c));
                         SetTimeout 2000] |}.
Proof.
  intro H. unfold Page.step. rewrite (handleCopy_present _ H). reflexivity.
Qed.

Lemma due_after_delay (ts : list nat) (t : nat) :
  exists d ds, filter (fun d => Nat.leb d t) (ts ++ [t]) = d :: ds.
Proof.
  rewrite filter_app. simpl. rewrite Nat.leb_refl.
  destruct (filter _ ts) as [|d ds]; simpl; eauto.
Qed.

(** C8. When the stored prompt is non-empty, [copyPrompt] asks the
    clipboard to write exactly that prompt, sets the copy flag and arms one
    timer of 2000 ms; status, image, prompt and error message are those of
    the session before.  When 2000 ms have passed the timer has fired and
    the flag is false again, the other four fields still unchanged. *)
Theorem copy_writes_prompt_and_acknowledges (c : Page.Config) :
  prompt (Page.session c) <> "" ->
  copyPrompt (Page.session c)
  = (Page.session c ;> setIsCopied true,
     [ClipboardWriteText (prompt (Page.session c)); SetTimeout 2000])
  /\ Page.trace (Page.step Page.ClickCopy c)
     = Page.trace c
       ++ [ClipboardWriteText (prompt (Page.session c)); SetTimeout 2000]
  /\ Page.session (Page.step Page.ClickCopy c)
     = {| imageFile := imageFile (Page.session c);
          prompt := prompt (Page.session c);
          status := status (Page.session c);
          error := error (Page.session c);
          isCopied := true |}
  /\ Page.session (Page.step (Page.Advance 2000) (Page.step Page.ClickCopy c))
     = {| imageFile := imageFile (Page.session c);
          prompt := prompt (Page.session c);
          status := status (Page.session c);
          error := error (Page.session c);
          isCopied := false |}.
Proof.
  intro H. unfold copyPrompt.
  rewrite (step_ClickCopy_present c H), (handleCopy_present _ H).
  repeat split.
  cbn [Page.step Page.session Page.timers Page.now].
  destruct (due_after_delay (Page.timers c) (Page.now c + 2000))
    as (d & ds & Hdue).
  rewrite Hdue. reflexivity.
Qed.

Lemma copy_witness :
  prompt (Page.session
            {| Page.session := Samples.succeeded; Page.inflight := [];
               Page.timers := []; Page.now := 0; Page.trace := [] |}) <> ""
  /\ Page.trace (Page.step Page.ClickCopy
                   {| Page.session := Samples.succeeded; Page.inflight := [];
                      Page.timers := []; Page.now := 0; Page.trace := [] |})
     = [ClipboardWriteText "A golden retriever..."; SetTimeout 2000].
Proof.
  split; [discriminate|].
  destruct (copy_writes_prompt_and_acknowledges
              {| Page.session := Samples.succeeded; Page.inflight := [];
                 Page.timers := []; Page.now := 0; Page.trace := [] |})
    as (_ & Htrace & _).
  - discriminate.
  - rewrite Htrace. reflexivity.
Defined.

(** ** Invariants of the running page *)

Lemma Consistent_initial : Consistent Page.initialConfig.
Proof.
  constructor; simpl; try discriminate. constructor.
Qed.

Lemma Forall_removeNth {A : Type} (P : A -> Prop) (i : nat) (l : list A) :
  Forall P l -> Forall P (Page.removeNth i l).
Proof.
  intro H. revert i.
  induction H as [|x l Hx Hl IH]; intros [|i]; simpl; auto.
Qed.

Lemma Consistent_step (ev : Page.Event) (c : Page.Config) :
  Consistent c -> Consistent (Page.step ev c).
Proof.
  intros [Hs He Hin].
  destruct ev as [file | rt w | i | | | ms]; unfold Page.step.
  - (* Change *)
    unfold handleImageChange.
    destruct file as [f|]; [|constructor; simpl; assumption].
    destruct (negb (Js.startsWith "image/" (type f)));
      constructor; simpl; auto; discriminate.
  - (* ClickGenerate *)
    destruct (generateButton_rendered _ && negb (generateButton_disabled _));
      [|constructor; simpl; assumption].
    unfold handleGeneratePrompt_call.
    destruct (imageFile (Page.session c)) as [f|]; [|constructor; simpl; assumption].
    destruct (GeminiService.generatePromptFromImage rt w f) as [r fx] eqn:Hgen.
    constructor; simpl; try discriminate.
    apply Forall_app. split; [assumption|].
    constructor; [|constructor].
    destruct r as [t|e]; simpl; [|exact I].
    eapply generatePromptFromImage_Ok_truthy. exact Hgen.
  - (* Settle *)
    destruct (nth_error (Page.inflight c) i) as [r|] eqn:Hnth;
      [|constructor; simpl; assumption].
    assert (Hr : resolvesNonEmpty r).
    { apply nth_error_In in Hnth.
      rewrite Forall_forall in Hin. now apply Hin. }
    destruct r as [t|e]; simpl.
    + constructor; simpl; auto using Forall_removeNth. discriminate.
    + constructor; simpl; auto using Forall_removeNth; [discriminate|].
      intros _. now apply or_else_truthy.
  - (* ClickCopy *)
    unfold handleCopy.
    destruct (Js.truthy (prompt (Page.session c))) eqn:Hp;
      constructor; simpl; intros; rewrite ?Hp; auto.
  - (* ClickReset *)
    constructor; simpl; auto; discriminate.
  - (* Advance *)
    destruct (filter _ (Page.timers c)); constructor; simpl; assumption.
Qed.

Lemma Consistent_run (evs : list Page.Event) (c : Page.Config) :
  Consistent c -> Consistent (Page.run evs c).
Proof.
  revert c. unfold Page.run.
  induction evs as [|ev evs IH]; intros c Hc; simpl; [assumption|].
  apply IH. now apply Consistent_step.
Qed.

(** [requestGeneration] is the click followed by the settling of the call
    it started, with nothing in between. *)
Lemma requestGeneration_is_click_then_settle
    (rt : Runtime) (w : World) (c : Page.Config) :
  Page.inflight c = [] ->
  Page.session (Page.run [Page.ClickGenerate rt w; Page.Settle 0] c)
  = fst (requestGeneration rt w (Page.session c))
  /\ Page.trace (Page.run [Page.ClickGenerate rt w; Page.Settle 0] c)
     = Page.trace c ++ snd (requestGeneration rt w (Page.session c)).
Proof.
  intro Hin.
  unfold Page.run, requestGeneration, handleGeneratePrompt.
  cbn [fold_left]. unfold Page.step.
  destruct (generateButton_rendered _ && negb (generateButton_disabled _)).
  - destruct (handleGeneratePrompt_call (Page.session c)) as [[s1 f]|].
    + destruct (GeminiService.generatePromptFromImage rt w f) as [r fx1].
      cbn [Page.inflight Page.session Page.trace].
      rewrite Hin. cbn [app nth_error].
      destruct (handleGeneratePrompt_settled r s1) as [s2 fx2].
      cbn. now rewrite app_assoc.
    + rewrite Hin. cbn. now rewrite app_nil_r.
  - rewrite Hin. cbn. now rewrite app_nil_r.
Qed.

(** A reset while the call is awaited does not cancel it: when it
    resolves, the page is in the success state with no image. *)
Example reset_while_loading_then_resolve :
  let c := Page.run [Page.Change (Some Samples.photo_png);
                     Page.ClickGenerate Samples.configured (Samples.answering "x");
                     Page.ClickReset;
                     Page.Settle 0] Page.initialConfig in
  status (Page.session c) = Success
  /\ imageFile (Page.session c) = None
  /\ prompt (Page.session c) = "x".
Proof. cbv zeta. repeat split; reflexivity. Qed.

(** C7. In every configuration the page reaches from its initial one, by
    any sequence of selections, clicks, settling calls and timers (and so
    whichever failure put it there: a file that is not an image, a missing
    or invalid credential, a safety block, an empty response, a failed
    call or a failed read), a session in the error state stores a
    non-empty message, and that message is displayed. *)
Theorem error_state_has_message (evs : list Page.Event) :
  status (Page.session (Page.run evs Page.initialConfig)) = Error ->
  error (Page.session (Page.run evs Page.initialConfig)) <> ""
  /\ displayedError (Page.session (Page.run evs Page.initialConfig))
     = Some (error (Page.session (Page.run evs Page.initialConfig))).
Proof.
  intro Hst.
  pose proof (Consistent_run evs Consistent_initial) as [_ He _].
  specialize (He Hst).
  split; [now apply truthy_true_iff|].
  unfold displayedError. rewrite Hst, He. reflexivity.
Qed.

Lemma error_state_has_message_witness :
  status (Page.session
            (Page.run [Page.Change (Some Samples.photo_png);
                       Page.ClickGenerate Samples.configured Samples.unreadable;
                       Page.Settle 0] Page.initialConfig)) = Error
  /\ error (Page.session
              (Page.run [Page.Change (Some Samples.photo_png);
                         Page.ClickGenerate Samples.configured Samples.unreadable;
                         Page.Settle 0] Page.initialConfig)) <> "".
Proof.
  split; [reflexivity|].
  apply (error_state_has_message
           [Page.Change (Some Samples.photo_png);
            Page.ClickGenerate Samples.configured Samples.unreadable;
            Page.Settle 0]).
  reflexivity.
Defined.

(** C9. In every configuration the page reaches from its initial one, by
    any sequence of selections, clicks on generate, copy and reset,
    settling calls and timers, a session in the success state stores a
    non-empty prompt, and that prompt is displayed: the adapter resolves
    only with a text that passed its truthiness test. *)
Theorem success_state_has_prompt (evs : list Page.Event) :
  status (Page.session (Page.run evs Page.initialConfig)) = Success ->
  prompt (Page.session (Page.run evs Page.initialConfig)) <> ""
  /\ displayedPrompt (Page.session (Page.run evs Page.initialConfig))
     = Some (prompt (Page.session (Page.run evs Page.initialConfig))).
Proof.
  intro Hst.
  pose proof (Consistent_run evs Consistent_initial) as [Hs _ _].
  specialize (Hs Hst).
  split; [now apply truthy_true_iff|].
  unfold displayedPrompt. rewrite Hst, Hs. reflexivity.
Qed.

Lemma success_state_has_prompt_witness :
  status (Page.session
            (Page.run [Page.Change (Some Samples.photo_png);
                       Page.ClickGenerate Samples.configured
                         (Samples.answering "A golden retriever...");
                       Page.Settle 0] Page.initialConfig)) = Success
  /\ prompt (Page.session
               (Page.run [Page.Change (Some Samples.photo_png);
                          Page.ClickGenerate Samples.configured
                            (Samples.answering "A golden retriever...");
                          Page.Settle 0] Page.initialConfig)) <> "".
Proof.
  split; [reflexivity|].
  apply (success_state_has_prompt
           [Page.Change (Some Samples.photo_png);
            Page.ClickGenerate Samples.configured
              (Samples.answering "A golden retriever...");
            Page.Settle 0]).
  reflexivity.
Defined.

(** * Further properties of the code *)

(** ** Strings *)

Lemma startsWith_nil (s : string) : Js.startsWith "" s = true.
Proof. destruct s; reflexivity. Qed.

Lemma startsWith_app (p b : string) : Js.startsWith p (p ++ b) = true.
Proof.
  induction p as [|a p IH].
  - apply startsWith_nil.
  - simpl. now rewrite Ascii.eqb_refl, IH.
Qed.

Lemma startsWith_inv (p s : string) :
  Js.startsWith p s = true -> exists b, s = (p ++ b)%string.
Proof.
  revert s. induction p as [|a p IH]; intros s H.
  - exists s. reflexivity.
  - destruct s as [|c s]; simpl in H; [discriminate|].
    apply andb_true_iff in H. destruct H as [Hac Hps].
    apply Ascii.eqb_eq in Hac. subst c.
    destruct (IH s Hps) as [b Hb]. exists b. simpl. now rewrite Hb.
Qed.

Lemma includes_unfold (p s : string) :
  Js.includes p s
  = Js.startsWith p s
    || match s with
       | EmptyString => false
       | String _ s' => Js.includes p s'
       end.
Proof. destruct s; reflexivity. Qed.

Lemma includes_app (p a b : string) : Js.includes p (a ++ p ++ b) = true.
Proof.
  induction a as [|c a IH].
  - simpl append at 1. rewrite includes_unfold, startsWith_app. reflexivity.
  - change (Js.includes p (String c a ++ p ++ b))
      with (Js.startsWith p (String c (a ++ p ++ b))
            || Js.includes p (a ++ p ++ b)).
    rewrite IH. apply orb_true_r.
Qed.

Lemma includes_inv (p s : string) :
  Js.includes p s = true -> exists a b, s = (a ++ p ++ b)%string.
Proof.
  induction s as [|c s IH]; rewrite includes_unfold; intro H;
    apply orb_true_iff in H; destruct H as [H|H].
  - destruct (startsWith_inv _ _ H) as [b Hb]. exists "", b. exact Hb.
  - discriminate.
  - destruct (startsWith_inv _ _ H) as [b Hb]. exists "", b. exact Hb.
  - destruct (IH H) as (a & b & Hab). exists (String c a), b.
    simpl. now rewrite Hab.
Qed.

Lemma includes_char_cons (c a : ascii) (s : string) :
  Js.includes (String c "") (String a s) = false ->
  Ascii.eqb a c = false /\ Js.includes (String c "") s = false.
Proof.
  rewrite includes_unfold. simpl. rewrite ?startsWith_nil, andb_true_r.
  intro H. apply orb_false_iff in H. destruct H as [Hca Hs].
  split; [now rewrite Ascii.eqb_sym | exact Hs].
Qed.

Lemma split_no_separator (c : ascii) (s : string) :
  Js.includes (String c "") s = false -> Js.split c s = [s].
Proof.
  induction s as [|a s IH]; intro H; [reflexivity|].
  apply includes_char_cons in H. destruct H as [Hac Hs].
  simpl. rewrite Hac, (IH Hs). reflexivity.
Qed.

Lemma split_at_first_separator (c : ascii) (pre rest : string) :
  Js.includes (String c "") pre = false ->
  Js.split c (pre ++ String c rest) = pre :: Js.split c rest.
Proof.
  induction pre as [|a pre IH]; intro H.
  - simpl. now rewrite Ascii.eqb_refl.
  - apply includes_char_cons in H. destruct H as [Hac Hpre].
    simpl. rewrite Hac, (IH Hpre). reflexivity.
Qed.

(** ** Encoding the file *)

(** X1. When the file is read as a data URL made of a prefix, a comma and a
    payload, neither of which contains a comma (as in
    "data:image/png;base64,...."), the image part carries the payload
    alone, prefix removed, with the file's declared media type. *)
Theorem fileToGenerativePart_strips_prefix
    (w : World) (f : File) (pre payload : string) :
  readAsDataURL w f = Loaded (pre ++ "," ++ payload) ->
  Js.includes "," pre = false ->
  Js.includes "," payload = false ->
  GeminiService.fileToGenerativePart w f
  = Ok (InlineDataPart {| data := Some payload; mimeType := type f |}).
Proof.
  intros Hread Hpre Hpay.
  unfold GeminiService.fileToGenerativePart. rewrite Hread.
  change ("," ++ payload)%string with (String "," payload).
  rewrite (split_at_first_separator "," pre payload Hpre).
  rewrite (split_no_separator "," payload Hpay).
  reflexivity.
Qed.

Lemma fileToGenerativePart_strips_prefix_witness :
  readAsDataURL (Samples.answering "x") Samples.photo_png
  = Loaded ("data:image/png;base64" ++ "," ++ "iVBORw0KGgo=")
  /\ Js.includes "," "data:image/png;base64" = false
  /\ Js.includes "," "iVBORw0KGgo=" = false
  /\ GeminiService.fileToGenerativePart (Samples.answering "x") Samples.photo_png
     = Ok (InlineDataPart {| data := Some "iVBORw0KGgo=";
                             mimeType := "image/png" |}).
Proof.
  split; [reflexivity|]. split; [reflexivity|]. split; [reflexivity|].
  apply (fileToGenerativePart_strips_prefix (Samples.answering "x")
           Samples.photo_png "data:image/png;base64" "iVBORw0KGgo=");
    reflexivity.
Defined.

Lemma tryBlock_after_read
    (w : World) (f : File) (part : Part) :
  GeminiService.fileToGenerativePart w f = Ok part ->
  filter isNetworkCall (snd (GeminiService.tryBlock w f))
  = [NetworkCall (GeminiService.request part)].
Proof.
  intro Hpart. unfold GeminiService.tryBlock. rewrite Hpart.
  destruct (generateContent w (GeminiService.request part)) as [resp|e];
    [|reflexivity].
  destruct (response_text resp) as [text|]; [|reflexivity].
  destruct (Js.truthy text); reflexivity.
Qed.

Lemma filter_isNetworkCall_logged (fx : list Effect) (e : JsThrown) :
  filter isNetworkCall (fx ++ [ConsoleError e]) = filter isNetworkCall fx.
Proof. rewrite filter_app. simpl. apply app_nil_r. Qed.

Lemma generatePromptFromImage_after_read
    (rt : Runtime) (w : World) (f : File) (part : Part) :
  Js.truthy_opt (API_KEY rt) = true ->
  GeminiService.fileToGenerativePart w f = Ok part ->
  filter isNetworkCall (snd (GeminiService.generatePromptFromImage rt w f))
  = [NetworkCall (GeminiService.request part)].
Proof.
  intros Hkey Hpart.
  rewrite (generatePromptFromImage_configured rt w f Hkey).
  pose proof (tryBlock_after_read w f Hpart) as H.
  destruct (GeminiService.tryBlock w f) as [[t|e] fx]; simpl in *.
  - exact H.
  - now rewrite filter_isNetworkCall_logged.
Qed.

(** X2. When the data URL the file is read as contains no comma (an empty
    file may be read as the bare "data:"), the image part has no data,
    and with a credential configured the request is sent all the same:
    one network call, whose image part carries [undefined] data. *)
Theorem data_url_without_comma_sends_no_data
    (rt : Runtime) (w : World) (f : File) (result : string) :
  Js.truthy_opt (API_KEY rt) = true ->
  readAsDataURL w f = Loaded result ->
  Js.includes "," result = false ->
  GeminiService.fileToGenerativePart w f
  = Ok (InlineDataPart {| data := None; mimeType := type f |})
  /\ filter isNetworkCall (snd (GeminiService.generatePromptFromImage rt w f))
     = [NetworkCall
          (GeminiService.request
             (InlineDataPart {| data := None; mimeType := type f |}))].
Proof.
  intros Hkey Hread Hfree.
  assert (Hpart : GeminiService.fileToGenerativePart w f
                  = Ok (InlineDataPart {| data := None; mimeType := type f |})).
  { unfold GeminiService.fileToGenerativePart. rewrite Hread.
    rewrite (split_no_separator "," result Hfree). reflexivity. }
  split; [exact Hpart|].
  apply generatePromptFromImage_after_read; assumption.
Qed.

Lemma data_url_without_comma_witness :
  Js.truthy_opt (API_KEY Samples.configured) = true
  /\ readAsDataURL MoreSamples.readsEmpty Samples.photo_png = Loaded "data:"
  /\ Js.includes "," "data:" = false
  /\ GeminiService.fileToGenerativePart MoreSamples.readsEmpty Samples.photo_png
     = Ok (InlineDataPart {| data := None; mimeType := "image/png" |}).
Proof.
  split; [reflexivity|]. split; [reflexivity|]. split; [reflexivity|].
  apply (data_url_without_comma_sends_no_data Samples.configured
           MoreSamples.readsEmpty Samples.photo_png (result := "data:"));
    reflexivity.
Defined.

(** ** What one call of the adapter sends, and how it settles *)

(** X3. The network calls of one run of [generatePromptFromImage] are
    fully determined by the credential and the file read: with a truthy
    [API_KEY] and a file read as a data URL there is exactly one call, to
    model "gemini-3-flash-preview", whose content is the image part (the
    text between the first and the second comma of the data URL, and the
    file's media type) followed by the fixed instruction; in every other
    case there is none.  So the adapter never calls twice. *)
Theorem adapter_outbound_traffic (rt : Runtime) (w : World) (f : File) :
  filter isNetworkCall (snd (GeminiService.generatePromptFromImage rt w f))
  = (if Js.truthy_opt (API_KEY rt) then
       match readAsDataURL w f with
       | Loaded result =>
           [NetworkCall
              {| model := "gemini-3-flash-preview";
                 contents :=
                   [InlineDataPart
                      {| data := nth_error (Js.split "," result) 1;
                         mimeType := type f |};
                    TextPart GeminiService.instruction] |}]
       | EndedWithoutResult => []
       | ReadError => []
       end
     else [])
  /\ (networkCalls (snd (GeminiService.generatePromptFromImage rt w f)) <= 1)%nat.
Proof.
  assert (H : filter isNetworkCall
                (snd (GeminiService.generatePromptFromImage rt w f))
              = (if Js.truthy_opt (API_KEY rt) then
                   match readAsDataURL w f with
                   | Loaded result =>
                       [NetworkCall
                          {| model := "gemini-3-flash-preview";
                             contents :=
                               [InlineDataPart
                                  {| data := nth_error (Js.split "," result) 1;
                                     mimeType := type f |};
                                TextPart GeminiService.instruction] |}]
                   | EndedWithoutResult => []
                   | ReadError => []
                   end
                 else [])).
  { destruct (Js.truthy_opt (API_KEY rt)) eqn:Hkey.
    - destruct (readAsDataURL w f) as [result| |] eqn:Hread.
      + apply generatePromptFromImage_after_read; [exact Hkey|].
        unfold GeminiService.fileToGenerativePart. now rewrite Hread.
      + rewrite (generatePromptFromImage_configured rt w f Hkey).
        unfold GeminiService.tryBlock, GeminiService.fileToGenerativePart.
        now rewrite Hread.
      + rewrite (generatePromptFromImage_configured rt w f Hkey).
        unfold GeminiService.tryBlock, GeminiService.fileToGenerativePart.
        now rewrite Hread.
    - now rewrite (generatePromptFromImage_unconfigured rt w f Hkey). }
  split; [exact H|].
  unfold networkCalls. rewrite H.
  destruct (Js.truthy_opt (API_KEY rt)); [|simpl; lia].
  destruct (readAsDataURL w f); simpl; lia.
Qed.

Lemma networkCalls_app (a b : list Effect) :
  networkCalls (a ++ b) = networkCalls a + networkCalls b.
Proof. unfold networkCalls. now rewrite filter_app, length_app. Qed.

Lemma generatePromptFromImage_at_most_one_call
    (rt : Runtime) (w : World) (f : File) :
  (networkCalls (snd (GeminiService.generatePromptFromImage rt w f)) <= 1)%nat.
Proof.
  unfold GeminiService.generatePromptFromImage.
  destruct (negb (Js.truthy_opt (API_KEY rt))); [unfold networkCalls; simpl; lia|].
  assert (Htry : (networkCalls (snd (GeminiService.tryBlock w f)) <= 1)%nat).
  { unfold GeminiService.tryBlock.
    destruct (GeminiService.fileToGenerativePart w f) as [part|e];
      [|unfold networkCalls; simpl; lia].
    destruct (generateContent w (GeminiService.request part)) as [resp|e];
      [|unfold networkCalls; simpl; lia].
    destruct (response_text resp) as [text|]; [|unfold networkCalls; simpl; lia].
    destruct (Js.truthy text); unfold networkCalls; simpl; lia. }
  destruct (GeminiService.tryBlock w f) as [[t|e] fx]; simpl in *.
  - exact Htry.
  - rewrite networkCalls_app. unfold networkCalls at 2. simpl. lia.
Qed.

(** X4. The adapter resolves with a text exactly when the credential is
    truthy, the file was read, the call returned a response, and the
    response's text is that text and is non-empty. *)
Theorem adapter_resolves_iff
    (rt : Runtime) (w : World) (f : File) (t : string) :
  (exists fx, GeminiService.generatePromptFromImage rt w f = (Ok t, fx))
  <-> Js.truthy_opt (API_KEY rt) = true
      /\ exists part response,
           GeminiService.fileToGenerativePart w f = Ok part
           /\ generateContent w (GeminiService.request part) = Ok response
           /\ response_text response = Some t
           /\ t <> "".
Proof.
  split.
  - intros [fx H].
    destruct (Js.truthy_opt (API_KEY rt)) eqn:Hkey.
    + split; [reflexivity|].
      rewrite (generatePromptFromImage_configured rt w f Hkey) in H.
      unfold GeminiService.tryBlock in H.
      destruct (GeminiService.fileToGenerativePart w f) as [part|e];
        [|discriminate].
      destruct (generateContent w (GeminiService.request part))
        as [resp|e] eqn:Hcall; [|discriminate].
      exists part, resp.
      destruct (response_text resp) as [text|] eqn:Htext.
      * destruct (Js.truthy text) eqn:Ht.
        -- inversion H. subst.
           repeat split; auto. now apply truthy_true_iff.
        -- destruct (Js.strictEq _ _); discriminate.
      * destruct (Js.strictEq _ _); discriminate.
    + rewrite (generatePromptFromImage_unconfigured rt w f Hkey) in H.
      discriminate.
  - intros (Hkey & part & resp & Hpart & Hcall & Htext & Hne).
    exists [NetworkCall (GeminiService.request part)].
    rewrite (generatePromptFromImage_configured rt w f Hkey).
    unfold GeminiService.tryBlock. rewrite Hpart, Hcall, Htext.
    apply truthy_true_iff in Hne. now rewrite Hne.
Qed.

(** X5. The adapter rejects with "API key is not configured. ..." and no
    effect at all exactly when [process.env.API_KEY] is undefined or the
    empty string: an empty key counts as a missing one and is never sent. *)
Theorem adapter_unconfigured_iff (rt : Runtime) (w : World) (f : File) :
  GeminiService.generatePromptFromImage rt w f
  = (Throw (JsError "API key is not configured. Please set up your environment variables."),
     [])
  <-> API_KEY rt = None \/ API_KEY rt = Some "".
Proof.
  split.
  - intro H.
    destruct (Js.truthy_opt (API_KEY rt)) eqn:Hkey.
    + rewrite (generatePromptFromImage_configured rt w f Hkey) in H.
      destruct (GeminiService.tryBlock w f) as [[t|e] fx]; [discriminate|].
      apply (f_equal snd) in H. simpl in H.
      destruct fx; discriminate.
    + destruct (API_KEY rt) as [k|]; [|now left].
      right. simpl in Hkey. apply truthy_false_iff in Hkey. now subst.
  - intro H. apply generatePromptFromImage_unconfigured.
    destruct H as [H|H]; now rewrite H.
Qed.

(** X6. With a credential configured, a file that cannot be read makes no
    network call.  When the read ends without a result the adapter rejects
    with "Failed to read file as data URL."; when the reader raises its
    error event, the rejection value has no message and the adapter's
    catch block fails on it: the adapter rejects with the engine's
    TypeError message. *)
Theorem unreadable_file_outcomes (rt : Runtime) (w : World) (f : File) :
  Js.truthy_opt (API_KEY rt) = true ->
  match readAsDataURL w f with
  | Loaded _ => True
  | EndedWithoutResult =>
      GeminiService.generatePromptFromImage rt w f
      = (Throw (JsError "Failed to read file as data URL."),
         [ConsoleError (JsError "Failed to read file as data URL.")])
  | ReadError =>
      GeminiService.generatePromptFromImage rt w f
      = (Throw (JsError (typeErrorMessage rt)), [ConsoleError NoMessage])
  end.
Proof.
  intro Hkey.
  destruct (readAsDataURL w f) as [result| |] eqn:Hread; [exact I| |];
    rewrite (generatePromptFromImage_configured rt w f Hkey);
    unfold GeminiService.tryBlock, GeminiService.fileToGenerativePart;
    rewrite Hread; reflexivity.
Qed.

Lemma unreadable_file_outcomes_witness :
  Js.truthy_opt (API_KEY Samples.configured) = true
  /\ readAsDataURL MoreSamples.aborted Samples.photo_png = EndedWithoutResult
  /\ GeminiService.generatePromptFromImage Samples.configured
       MoreSamples.aborted Samples.photo_png
     = (Throw (JsError "Failed to read file as data URL."),
        [ConsoleError (JsError "Failed to read file as data URL.")]).
Proof.
  split; [reflexivity|]. split; [reflexivity|].
  exact (unreadable_file_outcomes Samples.configured MoreSamples.aborted
           Samples.photo_png eq_refl).
Defined.

(** X7. The catch block answers "The provided API key is not valid. ..."
    exactly for the errors whose message contains "API key not valid"
    somewhere (whatever comes before and after), and for an error that
    already carries that answer as its message. *)
Theorem invalid_key_message_iff (rt : Runtime) (m : string) :
  GeminiService.catchBlock rt (JsError m)
  = JsError "The provided API key is not valid. Please check your configuration."
  <-> (exists a b, m = (a ++ "API key not valid" ++ b)%string)
      \/ m = "The provided API key is not valid. Please check your configuration.".
Proof.
  unfold GeminiService.catchBlock.
  change (message_of (JsError m)) with (Some m). cbv beta iota.
  split.
  - destruct (Js.includes "API key not valid" m) eqn:Hinc.
    + intros _. left. now apply includes_inv.
    + unfold Js.or_else. destruct (Js.truthy m).
      * intro H. right. congruence.
      * intro H. discriminate.
  - intros [(a & b & ->) | ->].
    + now rewrite includes_app.
    + reflexivity.
Qed.

(** ** What the session holds after an operation *)

Lemma catchBlock_is_error (rt : Runtime) (error : JsThrown) :
  exists m, GeminiService.catchBlock rt error = JsError m
            /\ (typeErrorMessage rt <> "" -> m <> "").
Proof.
  unfold GeminiService.catchBlock.
  destruct error as [m0|]; simpl message_of; cbv beta iota.
  - destruct (Js.includes "API key not valid" m0).
    + eexists. split; [reflexivity|]. intros _. discriminate.
    + eexists. split; [reflexivity|]. intros _.
      apply truthy_true_iff. now apply or_else_truthy.
  - eexists. split; [reflexivity|]. auto.
Qed.

Lemma generatePromptFromImage_rejects_with_error
    (rt : Runtime) (w : World) (f : File) (e : JsThrown) :
  fst (GeminiService.generatePromptFromImage rt w f) = Throw e ->
  exists m, e = JsError m /\ (typeErrorMessage rt <> "" -> m <> "").
Proof.
  unfold GeminiService.generatePromptFromImage.
  destruct (negb (Js.truthy_opt (API_KEY rt))).
  - simpl. intro H. inversion H. eexists. split; [reflexivity|].
    intros _. discriminate.
  - destruct (GeminiService.tryBlock w f) as [[t|error] fx]; simpl;
      [discriminate|].
    intro H. inversion H.
    destruct (catchBlock_is_error rt error) as (m & Hm & Hne).
    exists m. split; [exact Hm | exact Hne].
Qed.

(** X8. With an image selected and the button enabled, whenever the
    adapter rejects, what it rejects with is an error with a message, and
    (the engine's TypeError message being non-empty) that message is
    non-empty and is exactly what the session stores, in the error state
    with an empty prompt: the handler's own fallback text is not used. *)
Theorem rejection_message_is_stored
    (rt : Runtime) (w : World) (s : Session) (f : File) (e : JsThrown) :
  imageFile s = Some f ->
  status s <> Loading ->
  typeErrorMessage rt <> "" ->
  fst (GeminiService.generatePromptFromImage rt w f) = Throw e ->
  exists m,
    e = JsError m
    /\ m <> ""
    /\ status (fst (requestGeneration rt w s)) = Error
    /\ error (fst (requestGeneration rt w s)) = m
    /\ prompt (fst (requestGeneration rt w s)) = "".
Proof.
  intros Hf Hst Hte Hrej.
  destruct (generatePromptFromImage_rejects_with_error rt w f Hrej)
    as (m & -> & Hne).
  specialize (Hne Hte).
  exists m. split; [reflexivity|]. split; [exact Hne|].
  rewrite (requestGeneration_enabled rt w s Hf Hst), Hrej. simpl.
  apply truthy_true_iff in Hne. rewrite Hne. repeat split.
Qed.

Lemma rejection_message_is_stored_witness :
  imageFile Samples.withPhoto = Some Samples.photo_png
  /\ status Samples.withPhoto <> Loading
  /\ typeErrorMessage Samples.configured <> ""
  /\ fst (GeminiService.generatePromptFromImage Samples.configured
            (Samples.failing "Failed to fetch") Samples.photo_png)
     = Throw (JsError "Failed to fetch")
  /\ exists m,
       JsError "Failed to fetch" = JsError m
       /\ m <> ""
       /\ status (fst (requestGeneration Samples.configured
                         (Samples.failing "Failed to fetch") Samples.withPhoto))
          = Error
       /\ error (fst (requestGeneration Samples.configured
                        (Samples.failing "Failed to fetch") Samples.withPhoto))
          = m
       /\ prompt (fst (requestGeneration Samples.configured
                         (Samples.failing "Failed to fetch") Samples.withPhoto))
          = "".
Proof.
  split; [reflexivity|]. split; [discriminate|]. split; [discriminate|].
  split; [reflexivity|].
  apply (rejection_message_is_stored Samples.configured
           (Samples.failing "Failed to fetch") Samples.withPhoto
           (f := Samples.photo_png) (e := JsError "Failed to fetch"));
    [reflexivity | discriminate | discriminate | reflexivity].
Defined.

(** X9. With an image selected and the button enabled, a generation run
    to completion never leaves the session loading: it ends either in
    success with a non-empty prompt and an empty error, or in error with
    an empty prompt and a non-empty error.  The image and the copy flag
    are kept, at most one network call was made, and the button is
    enabled again, so the generation can always be retried. *)
Theorem generation_ends_in_success_or_error
    (rt : Runtime) (w : World) (s : Session) (f : File) :
  imageFile s = Some f ->
  status s <> Loading ->
  ((status (fst (requestGeneration rt w s)) = Success
    /\ prompt (fst (requestGeneration rt w s)) <> ""
    /\ error (fst (requestGeneration rt w s)) = "")
   \/ (status (fst (requestGeneration rt w s)) = Error
       /\ prompt (fst (requestGeneration rt w s)) = ""
       /\ error (fst (requestGeneration rt w s)) <> ""))
  /\ imageFile (fst (requestGeneration rt w s)) = Some f
  /\ isCopied (fst (requestGeneration rt w s)) = isCopied s
  /\ (networkCalls (snd (requestGeneration rt w s)) <= 1)%nat
  /\ generateButton_rendered (fst (requestGeneration rt w s))
     && negb (generateButton_disabled (fst (requestGeneration rt w s)))
     = true.
Proof.
  intros Hf Hst.
  rewrite (requestGeneration_enabled rt w s Hf Hst).
  pose proof (generatePromptFromImage_at_most_one_call rt w f) as Hcalls.
  destruct (GeminiService.generatePromptFromImage rt w f) as [[t|e] fx] eqn:Hgen;
    cbn [fst snd handleGeneratePrompt_settled] in *.
  - apply generatePromptFromImage_Ok_truthy in Hgen.
    apply truthy_true_iff in Hgen.
    unfold generateButton_rendered, generateButton_disabled, hasImageUrl.
    simpl. rewrite Hf, app_nil_r.
    repeat split; auto.
  - unfold generateButton_rendered, generateButton_disabled, hasImageUrl.
    simpl. rewrite Hf, networkCalls_app.
    repeat split; auto.
    + right. repeat split.
      apply truthy_true_iff. now apply or_else_truthy.
    + unfold networkCalls at 2. simpl. lia.
Qed.

Lemma generation_ends_witness :
  imageFile Samples.withPhoto = Some Samples.photo_png
  /\ status Samples.withPhoto <> Loading
  /\ imageFile (fst (requestGeneration Samples.configured
                       (Samples.silent None) Samples.withPhoto))
     = Some Samples.photo_png.
Proof.
  split; [reflexivity|]. split; [discriminate|].
  apply (generation_ends_in_success_or_error Samples.configured
           (Samples.silent None) Samples.withPhoto (f := Samples.photo_png));
    [reflexivity | discriminate].
Defined.

(** X10. Selecting a file whose declared media type is "image/" followed
    by anything replaces the stored image by that file, clears the prompt
    and the error and sets the status to image-selected, whatever the
    session was; only the copy flag is kept.  Neither panel is shown and
    the generate button is rendered and enabled. *)
Theorem image_selection_replaces_session
    (f : File) (s : Session) (rest : string) :
  type f = ("image/" ++ rest)%string ->
  selectImage f s
  = {| imageFile := Some f; prompt := ""; status := ImageSelected;
       error := ""; isCopied := isCopied s |}
  /\ displayedPrompt (selectImage f s) = None
  /\ displayedError (selectImage f s) = None
  /\ generateButton_rendered (selectImage f s)
     && negb (generateButton_disabled (selectImage f s)) = true.
Proof.
  intro Hty.
  assert (H : selectImage f s
              = {| imageFile := Some f; prompt := ""; status := ImageSelected;
                   error := ""; isCopied := isCopied s |}).
  { unfold selectImage, handleImageChange.
    rewrite Hty, startsWith_app. reflexivity. }
  rewrite H. repeat split.
Qed.

Lemma image_selection_witness :
  type MoreSamples.picture_gif = ("image/" ++ "gif")%string
  /\ selectImage MoreSamples.picture_gif Samples.succeeded
     = {| imageFile := Some MoreSamples.picture_gif; prompt := "";
          status := ImageSelected; error := ""; isCopied := false |}.
Proof.
  split; [reflexivity|].
  apply (image_selection_replaces_session MoreSamples.picture_gif
           Samples.succeeded (rest := "gif")).
  reflexivity.
Defined.

(** X11. A selected file is accepted exactly when its declared media type
    is "image/" followed by anything; every other file (an empty type,
    "IMAGE/PNG", "text/plain") puts the session in the error state. *)
Theorem selection_accepted_iff (f : File) (s : Session) :
  (status (selectImage f s) = ImageSelected
   <-> exists rest, type f = ("image/" ++ rest)%string)
  /\ (status (selectImage f s) = Error
      <-> ~ exists rest, type f = ("image/" ++ rest)%string).
Proof.
  unfold selectImage, handleImageChange.
  destruct (Js.startsWith "image/" (type f)) eqn:Hst; simpl.
  - apply startsWith_inv in Hst.
    split; split; intro H; auto; try discriminate. now elim H.
  - assert (Hno : ~ exists rest, type f = ("image/" ++ rest)%string).
    { intros [rest Hr]. rewrite Hr, startsWith_app in Hst. discriminate. }
    split; split; intro H; auto; try discriminate. now elim Hno.
Qed.

(** X12. [reset] leaves no image, an empty prompt, an empty error and the
    initial status, and keeps the copy flag as it was.  After it neither
    panel is shown, a click on generate and a copy do nothing, and a second
    reset changes nothing. *)
Theorem reset_returns_to_initial (rt : Runtime) (w : World) (s : Session) :
  reset s
  = {| imageFile := None; prompt := ""; status := Initial; error := "";
       isCopied := isCopied s |}
  /\ displayedPrompt (reset s) = None
  /\ displayedError (reset s) = None
  /\ requestGeneration rt w (reset s) = (reset s, [])
  /\ copyPrompt (reset s) = (reset s, [])
  /\ reset (reset s) = reset s.
Proof. repeat split. Qed.

(** ** Further invariants of the running page *)

Lemma run_invariant (P : Page.Config -> Prop) :
  (forall ev c, P c -> P (Page.step ev c)) ->
  forall evs c, P c -> P (Page.run evs c).
Proof.
  intros Hstep evs. unfold Page.run.
  induction evs as [|ev evs IH]; intros c Hc; simpl; auto.
Qed.

Lemma uiStep_invariant (P : Page.Config -> Prop) :
  (forall ev c, P c -> P (Page.step ev c)) ->
  forall ev c, P c -> P (Ui.uiStep ev c).
Proof.
  intros Hstep ev c Hc. unfold Ui.uiStep.
  destruct (Ui.available ev (Page.session c)); auto.
Qed.

Lemma uiRun_invariant (P : Page.Config -> Prop) :
  (forall ev c, P c -> P (Page.step ev c)) ->
  forall evs c, P c -> P (Ui.uiRun evs c).
Proof.
  intros Hstep evs. unfold Ui.uiRun.
  induction evs as [|ev evs IH]; intros c Hc; simpl; auto.
  apply IH. now apply uiStep_invariant.
Qed.

Lemma ModeInvariant_step (ev : Page.Event) (c : Page.Config) :
  ModeInvariant c -> ModeInvariant (Page.step ev c).
Proof.
  intro H. unfold ModeInvariant in *.
  destruct ev as [file | rt w | i | | | ms]; unfold Page.step.
  - cbn [Page.session Page.inflight]. unfold handleImageChange.
    destruct file as [f|]; [|exact H].
    destruct (negb (Js.startsWith "image/" (type f))); simpl; [exact I|].
    repeat split. discriminate.
  - destruct (generateButton_rendered _ && negb (generateButton_disabled _));
      [|exact H].
    unfold handleGeneratePrompt_call.
    destruct (imageFile (Page.session c)) as [f|] eqn:Hf;
      [|rewrite Hf; exact H].
    destruct (GeminiService.generatePromptFromImage rt w f) as [r fx].
    simpl. rewrite Hf. repeat split; try discriminate.
    intro Hnil. apply app_eq_nil in Hnil. destruct Hnil. discriminate.
  - destruct (nth_error (Page.inflight c) i) as [r|]; [|exact H].
    destruct r; simpl; exact I.
  - unfold handleCopy.
    destruct (Js.truthy (prompt (Page.session c))); simpl; exact H.
  - simpl. repeat split.
  - destruct (filter _ (Page.timers c)); simpl; exact H.
Qed.

(** X13. In every configuration the page reaches from its initial one:
    in the initial status there is no image, no prompt and no error; in
    the image-selected status there is an image, no prompt and no error;
    in the loading status there is an image, no prompt, no error, and a
    call is awaited, so the page never shows "Generating..." with nothing
    in flight. *)
Theorem status_determines_fields (evs : list Page.Event) :
  ModeInvariant (Page.run evs Page.initialConfig).
Proof.
  apply (run_invariant ModeInvariant ModeInvariant_step).
  unfold ModeInvariant. simpl. repeat split.
Qed.

Lemma isCopied_handleImageChange (file : option File) (s : Session) :
  isCopied (handleImageChange file s) = isCopied s.
Proof.
  unfold handleImageChange. destruct file as [f|]; [|reflexivity].
  destruct (negb (Js.startsWith "image/" (type f))); reflexivity.
Qed.

Lemma filter_none_due (p : nat -> bool) (l : list nat) :
  filter p l = [] -> filter (fun d => negb (p d)) l = l.
Proof.
  induction l as [|x l IH]; simpl; [reflexivity|].
  destruct (p x); [discriminate|]. intro H. simpl. now rewrite IH.
Qed.

Lemma filter_all_due (t : nat) (l : list nat) :
  Forall (fun d => (d <= t)%nat) l -> filter (fun d => Nat.leb d t) l = l.
Proof.
  induction 1 as [|x l Hx Hl IH]; simpl; [reflexivity|].
  apply Nat.leb_le in Hx. now rewrite Hx, IH.
Qed.

Lemma filter_all_fired (t : nat) (l : list nat) :
  Forall (fun d => (d <= t)%nat) l ->
  filter (fun d => negb (Nat.leb d t)) l = [].
Proof.
  induction 1 as [|x l Hx Hl IH]; simpl; [reflexivity|].
  apply Nat.leb_le in Hx. now rewrite Hx.
Qed.

Lemma Forall_filter_keep {A : Type} (P : A -> Prop) (p : A -> bool) (l : list A) :
  Forall P l -> Forall P (filter p l).
Proof.
  induction 1 as [|x l Hx Hl IH]; simpl; [constructor|].
  destruct (p x); [constructor|]; assumption.
Qed.

Lemma TimersInvariant_step (ev : Page.Event) (c : Page.Config) :
  TimersInvariant c -> TimersInvariant (Page.step ev c).
Proof.
  intros [Hdue Hflag]. unfold TimersInvariant.
  destruct ev as [file | rt w | i | | | ms]; unfold Page.step.
  - cbn [Page.session Page.timers Page.now].
    rewrite isCopied_handleImageChange. split; assumption.
  - destruct (generateButton_rendered _ && negb (generateButton_disabled _));
      [|split; assumption].
    unfold handleGeneratePrompt_call.
    destruct (imageFile (Page.session c)) as [f|]; [|split; assumption].
    destruct (GeminiService.generatePromptFromImage rt w f) as [r fx].
    simpl. split; assumption.
  - destruct (nth_error (Page.inflight c) i) as [r|]; [|split; assumption].
    destruct r; simpl; split; assumption.
  - unfold handleCopy.
    destruct (Js.truthy (prompt (Page.session c))); simpl.
    + split.
      * apply Forall_app. split; [assumption|].
        constructor; [lia | constructor].
      * intros _ Hnil. apply app_eq_nil in Hnil. destruct Hnil. discriminate.
    + rewrite app_nil_r. split; assumption.
  - simpl. split; assumption.
  - cbn [Page.session Page.timers Page.now]. split.
    + apply Forall_filter_keep.
      eapply Forall_impl; [|exact Hdue]. simpl. intros d Hd. lia.
    + destruct (filter (fun d => Nat.leb d (Page.now c + ms)) (Page.timers c))
        eqn:Hfilter.
      * rewrite (filter_none_due _ _ Hfilter). exact Hflag.
      * simpl. discriminate.
Qed.

Lemma TimersInvariant_initial : TimersInvariant Page.initialConfig.
Proof. split; simpl; [constructor | discriminate]. Qed.

(** X14. From any configuration the page reaches, once 2000 ms or more
    have passed with no copy in between, the copy flag is false: every
    armed timer falls due within 2000 ms and a set flag always has a timer
    armed, so the check mark never outlives its delay. *)
Theorem copy_flag_clears_after_delay (evs : list Page.Event) (ms : nat) :
  (2000 <= ms)%nat ->
  isCopied (Page.session
              (Page.step (Page.Advance ms) (Page.run evs Page.initialConfig)))
  = false
  /\ Page.timers
       (Page.step (Page.Advance ms) (Page.run evs Page.initialConfig)) = [].
Proof.
  intro Hms.
  pose proof (run_invariant TimersInvariant TimersInvariant_step evs
                Page.initialConfig TimersInvariant_initial) as [Hdue Hflag].
  set (c := Page.run evs Page.initialConfig) in *.
  assert (Hall : Forall (fun d => (d <= Page.now c + ms)%nat) (Page.timers c)).
  { eapply Forall_impl; [|exact Hdue]. simpl. intros d Hd. lia. }
  unfold Page.step. cbn [Page.session Page.timers].
  rewrite (filter_all_due Hall), (filter_all_fired Hall). split.
  - destruct (Page.timers c) as [|d ds].
    + destruct (isCopied (Page.session c)); [|reflexivity].
      now elim Hflag.
    + reflexivity.
  - reflexivity.
Qed.

Lemma copy_flag_clears_witness :
  (2000 <= 2000)%nat
  /\ isCopied (Page.session MoreSamples.copied) = true
  /\ isCopied (Page.session (Page.step (Page.Advance 2000) MoreSamples.copied))
     = false.
Proof.
  split; [lia|]. split; [reflexivity|].
  apply (copy_flag_clears_after_delay
           [Page.Change (Some Samples.photo_png);
            Page.ClickGenerate Samples.configured
              (Samples.answering "A golden retriever...");
            Page.Settle 0;
            Page.ClickCopy] (ms := 2000)).
  lia.
Defined.

Lemma clipboardWrites_app (a b : list Effect) :
  clipboardWrites (a ++ b) = clipboardWrites a ++ clipboardWrites b.
Proof. unfold clipboardWrites. apply flat_map_app. Qed.

Lemma timeouts_app (a b : list Effect) :
  Page.timeouts (a ++ b) = Page.timeouts a ++ Page.timeouts b.
Proof. unfold Page.timeouts. apply flat_map_app. Qed.

(** The adapter touches neither the clipboard nor the timers. *)
Lemma generatePromptFromImage_quiet (rt : Runtime) (w : World) (f : File) :
  clipboardWrites (snd (GeminiService.generatePromptFromImage rt w f)) = []
  /\ Page.timeouts (snd (GeminiService.generatePromptFromImage rt w f)) = [].
Proof.
  unfold GeminiService.generatePromptFromImage.
  destruct (negb (Js.truthy_opt (API_KEY rt))); [split; reflexivity|].
  assert (Htry : clipboardWrites (snd (GeminiService.tryBlock w f)) = []
                 /\ Page.timeouts (snd (GeminiService.tryBlock w f)) = []).
  { unfold GeminiService.tryBlock.
    destruct (GeminiService.fileToGenerativePart w f) as [part|e];
      [|split; reflexivity].
    destruct (generateContent w (GeminiService.request part)) as [resp|e];
      [|split; reflexivity].
    destruct (response_text resp) as [text|]; [|split; reflexivity].
    destruct (Js.truthy text); split; reflexivity. }
  destruct (GeminiService.tryBlock w f) as [[t|e] fx]; simpl in *.
  - exact Htry.
  - destruct Htry as [Hc Ht].
    rewrite clipboardWrites_app, timeouts_app, Hc, Ht. split; reflexivity.
Qed.

Lemma CopyTraceInvariant_step (ev : Page.Event) (c : Page.Config) :
  CopyTraceInvariant c -> CopyTraceInvariant (Page.step ev c).
Proof.
  intros [Htexts Harmed]. unfold CopyTraceInvariant.
  destruct ev as [file | rt w | i | | | ms]; unfold Page.step.
  - split; assumption.
  - destruct (generateButton_rendered _ && negb (generateButton_disabled _));
      [|split; assumption].
    unfold handleGeneratePrompt_call.
    destruct (imageFile (Page.session c)) as [f|]; [|split; assumption].
    destruct (generatePromptFromImage_quiet rt w f) as [Hc Ht].
    destruct (GeminiService.generatePromptFromImage rt w f) as [r fx].
    cbn [Page.trace]. simpl in Hc, Ht.
    rewrite clipboardWrites_app, timeouts_app, Hc, Ht, !app_nil_r.
    split; assumption.
  - destruct (nth_error (Page.inflight c) i) as [r|]; [|split; assumption].
    destruct r; cbn [handleGeneratePrompt_settled Page.trace];
      rewrite clipboardWrites_app, timeouts_app; simpl; rewrite !app_nil_r;
      split; assumption.
  - unfold handleCopy.
    destruct (Js.truthy (prompt (Page.session c))) eqn:Hp; cbn [Page.trace];
      rewrite clipboardWrites_app, timeouts_app; simpl.
    + split.
      * apply Forall_app. split; [assumption|].
        constructor; [now apply truthy_true_iff | constructor].
      * rewrite Harmed, map_app. reflexivity.
    + rewrite !app_nil_r. split; assumption.
  - split; assumption.
  - split; assumption.
Qed.

(** X15. Over any run of the page from its initial configuration, every
    text handed to the clipboard is non-empty, and the timers armed are
    exactly one of 2000 ms per clipboard write: nothing but a copy of a
    present prompt writes to the clipboard or arms a timer. *)
Theorem clipboard_receives_only_prompts (evs : list Page.Event) :
  Forall (fun t => t <> "")
    (clipboardWrites (Page.trace (Page.run evs Page.initialConfig)))
  /\ Page.timeouts (Page.trace (Page.run evs Page.initialConfig))
     = map (fun _ => 2000)
         (clipboardWrites (Page.trace (Page.run evs Page.initialConfig))).
Proof.
  apply (run_invariant CopyTraceInvariant CopyTraceInvariant_step).
  split; [constructor | reflexivity].
Qed.

Lemma networkCalls_step (ev : Page.Event) (c : Page.Config) :
  (networkCalls (Page.trace (Page.step ev c))
   <= networkCalls (Page.trace c)
      + (if Ui.isClickGenerate ev then 1 else 0))%nat.
Proof.
  destruct ev as [file | rt w | i | | | ms]; unfold Page.step;
    cbn [Ui.isClickGenerate].
  - simpl. lia.
  - destruct (generateButton_rendered _ && negb (generateButton_disabled _));
      [|lia].
    unfold handleGeneratePrompt_call.
    destruct (imageFile (Page.session c)) as [f|]; [|lia].
    pose proof (generatePromptFromImage_at_most_one_call rt w f) as H.
    destruct (GeminiService.generatePromptFromImage rt w f) as [r fx].
    cbn [Page.trace]. simpl in H. rewrite networkCalls_app. lia.
  - destruct (nth_error (Page.inflight c) i) as [r|]; [|lia].
    destruct r; cbn [handleGeneratePrompt_settled Page.trace];
      rewrite networkCalls_app; unfold networkCalls at 2; simpl; lia.
  - unfold handleCopy.
    destruct (Js.truthy (prompt (Page.session c))); cbn [Page.trace];
      rewrite networkCalls_app; unfold networkCalls at 2; simpl; lia.
  - simpl. lia.
  - simpl. lia.
Qed.

Lemma networkCalls_run (evs : list Page.Event) (c : Page.Config) :
  (networkCalls (Page.trace (Page.run evs c))
   <= networkCalls (Page.trace c) + length (filter Ui.isClickGenerate evs))%nat.
Proof.
  revert c. unfold Page.run.
  induction evs as [|ev evs IH]; intro c; simpl; [lia|].
  specialize (IH (Page.step ev c)).
  pose proof (networkCalls_step ev c) as Hstep.
  destruct (Ui.isClickGenerate ev); simpl; lia.
Qed.

(** X16. Over any run of the page from its initial configuration, the
    number of network calls made is at most the number of clicks on the
    generate button: selecting a file, copying, resetting, a settling call
    and a timer never call the service, and a click calls it at most
    once (there is no retry). *)
Theorem network_calls_bounded_by_clicks (evs : list Page.Event) :
  (networkCalls (Page.trace (Page.run evs Page.initialConfig))
   <= length (filter Ui.isClickGenerate evs))%nat.
Proof.
  pose proof (networkCalls_run evs Page.initialConfig) as H.
  simpl in H. exact H.
Qed.

(** ** One call at a time *)

Lemma nth_error_singleton_S {A : Type} (x : A) (i : nat) :
  nth_error [x] (S i) = None.
Proof. destruct i; reflexivity. Qed.

Lemma nth_error_nil_any {A : Type} (i : nat) : nth_error (@nil A) i = None.
Proof. destruct i; reflexivity. Qed.

Lemma status_handleImageChange_not_Loading (file : option File) (s : Session) :
  status s <> Loading -> status (handleImageChange file s) <> Loading.
Proof.
  intro H. unfold handleImageChange. destruct file as [f|]; [|exact H].
  destruct (negb (Js.startsWith "image/" (type f))); simpl; discriminate.
Qed.

Lemma SingleFlight_uiStep (ev : Page.Event) (c : Page.Config) :
  Ui.isReset ev = false -> SingleFlight c -> SingleFlight (Ui.uiStep ev c).
Proof.
  intros Hev Hc. unfold Ui.uiStep.
  destruct (Ui.available ev (Page.session c)) eqn:Hav; [|exact Hc].
  destruct ev as [file | rt w | i | | | ms]; simpl in Hev, Hav;
    try discriminate; unfold Page.step.
  - (* the upload input is there: no image, so nothing is awaited *)
    destruct Hc as [(_ & Himg & _) | (Hst & Hin)].
    + unfold Ui.uploadInput_rendered, hasImageUrl in Hav.
      destruct (imageFile (Page.session c)); [discriminate | now elim Himg].
    + right. cbn [Page.session Page.inflight].
      split; [now apply status_handleImageChange_not_Loading | exact Hin].
  - (* the button is enabled: not loading, so nothing is awaited *)
    rewrite Hav.
    apply andb_true_iff in Hav. destruct Hav as [Hren Hdis].
    destruct Hc as [(Hst & _) | (Hst & Hin)].
    + unfold generateButton_disabled in Hdis. rewrite Hst in Hdis.
      discriminate.
    + unfold handleGeneratePrompt_call.
      destruct (imageFile (Page.session c)) as [f|] eqn:Hf.
      * destruct (GeminiService.generatePromptFromImage rt w f) as [r fx].
        left. simpl. rewrite Hf, Hin.
        split; [reflexivity|]. split; [discriminate|]. now exists r.
      * right. split; assumption.
  - destruct Hc as [(Hst & Himg & r & Hin) | (Hst & Hin)].
    + rewrite Hin. destruct i as [|i].
      * right. destruct r; simpl; split; try discriminate; reflexivity.
      * rewrite nth_error_singleton_S. left. split; [exact Hst|].
        split; [exact Himg|]. now exists r.
    + rewrite Hin, nth_error_nil_any. right. split; assumption.
  - unfold handleCopy.
    destruct (Js.truthy (prompt (Page.session c))); simpl; exact Hc.
  - destruct (filter _ (Page.timers c)); simpl; exact Hc.
Qed.

Lemma SingleFlight_uiRun (evs : list Page.Event) (c : Page.Config) :
  forallb (fun ev => negb (Ui.isReset ev)) evs = true ->
  SingleFlight c -> SingleFlight (Ui.uiRun evs c).
Proof.
  revert c. unfold Ui.uiRun.
  induction evs as [|ev evs IH]; intros c Hevs Hc; simpl; [exact Hc|].
  simpl in Hevs. apply andb_true_iff in Hevs. destruct Hevs as [Hev Hevs].
  apply IH; [exact Hevs|].
  apply SingleFlight_uiStep; [|exact Hc].
  now apply negb_true_iff.
Qed.

(** X17. On the page as a user can drive it (each control used only when
    it is rendered and enabled), as long as the reset button is not
    clicked, at most one call is awaited at any time, and one is awaited
    exactly when the status is loading. *)
Theorem one_call_at_a_time_without_reset (evs : list Page.Event) :
  forallb (fun ev => negb (Ui.isReset ev)) evs = true ->
  (length (Page.inflight (Ui.uiRun evs Page.initialConfig)) <= 1)%nat
  /\ (status (Page.session (Ui.uiRun evs Page.initialConfig)) = Loading
      <-> Page.inflight (Ui.uiRun evs Page.initialConfig) <> []).
Proof.
  intro Hevs.
  assert (H0 : SingleFlight Page.initialConfig).
  { right. split; [discriminate | reflexivity]. }
  pose proof (SingleFlight_uiRun evs Hevs H0) as H.
  destruct H as [(Hst & _ & r & Hin) | (Hst & Hin)]; rewrite Hin.
  - split; [simpl; lia|]. split; [discriminate | intros _; exact Hst].
  - split; [simpl; lia|].
    split; [intro H; now elim Hst | intro H; now elim H].
Qed.

Lemma one_call_at_a_time_witness :
  forallb (fun ev => negb (Ui.isReset ev))
    [Page.Change (Some Samples.photo_png);
     Page.ClickGenerate Samples.configured (Samples.answering "x");
     Page.ClickGenerate Samples.configured (Samples.answering "y")] = true
  /\ length (Page.inflight
               (Ui.uiRun
                  [Page.Change (Some Samples.photo_png);
                   Page.ClickGenerate Samples.configured (Samples.answering "x");
                   Page.ClickGenerate Samples.configured (Samples.answering "y")]
                  Page.initialConfig)) = 1
  /\ (length (Page.inflight
                (Ui.uiRun
                   [Page.Change (Some Samples.photo_png);
                    Page.ClickGenerate Samples.configured (Samples.answering "x");
                    Page.ClickGenerate Samples.configured (Samples.answering "y")]
                   Page.initialConfig)) <= 1)%nat.
Proof.
  split; [reflexivity|]. split; [reflexivity|].
  apply (one_call_at_a_time_without_reset
           [Page.Change (Some Samples.photo_png);
            Page.ClickGenerate Samples.configured (Samples.answering "x");
            Page.ClickGenerate Samples.configured (Samples.answering "y")]).
  reflexivity.
Defined.

(** With a reset in between, a second call starts while the first is
    still awaited, and the first to resolve is shown for the new image. *)
Example two_calls_after_reset :
  let c := Ui.uiRun [Page.Change (Some Samples.photo_png);
                     Page.ClickGenerate Samples.configured (Samples.answering "x");
                     Page.ClickReset;
                     Page.Change (Some MoreSamples.picture_gif);
                     Page.ClickGenerate Samples.configured (Samples.answering "y")]
             Page.initialConfig in
  length (Page.inflight c) = 2
  /\ networkCalls (Page.trace c) = 2
  /\ imageFile (Page.session (Ui.uiStep (Page.Settle 0) c))
     = Some MoreSamples.picture_gif
  /\ prompt (Page.session (Ui.uiStep (Page.Settle 0) c)) = "x".
Proof. cbv zeta. repeat split; reflexivity. Qed.

(** ** The copy button *)

(** X18. Whenever the copy button is rendered, a click on it hands the
    clipboard exactly the prompt that is displayed, arms the 2000 ms
    timer, and turns the button's icon into the check mark; the displayed
    prompt stays the same. *)
Theorem copy_button_copies_displayed_prompt (s : Session) :
  Ui.copyButton_rendered s = true ->
  displayedPrompt s = Some (prompt s)
  /\ copyPrompt s
     = (s ;> setIsCopied true,
        [ClipboardWriteText (prompt s); SetTimeout 2000])
  /\ Ui.checkIcon_shown (fst (copyPrompt s)) = true
  /\ displayedPrompt (fst (copyPrompt s)) = displayedPrompt s.
Proof.
  intro Hren.
  assert (Hshown : displayedPrompt s = Some (prompt s)).
  { unfold displayedPrompt. unfold Ui.copyButton_rendered in Hren.
    now rewrite Hren. }
  unfold Ui.copyButton_rendered in Hren.
  apply andb_true_iff in Hren. destruct Hren as [Hst Hp].
  assert (Hcopy : copyPrompt s
                  = (s ;> setIsCopied true,
                     [ClipboardWriteText (prompt s); SetTimeout 2000])).
  { unfold copyPrompt, handleCopy. now rewrite Hp. }
  rewrite Hcopy. cbn [fst].
  split; [exact Hshown|]. split; [reflexivity|]. split.
  - unfold Ui.checkIcon_shown, Ui.copyButton_rendered. simpl.
    now rewrite Hst, Hp.
  - unfold displayedPrompt. reflexivity.
Qed.

Lemma copy_button_witness :
  Ui.copyButton_rendered Samples.succeeded = true
  /\ snd (copyPrompt Samples.succeeded)
     = [ClipboardWriteText "A golden retriever..."; SetTimeout 2000].
Proof.
  split; [reflexivity|].
  destruct (copy_button_copies_displayed_prompt Samples.succeeded eq_refl)
    as (_ & Hcopy & _).
  rewrite Hcopy. reflexivity.
Defined.
